(** * litreview-ai: the extraction and analysis pipeline of [app.py]

    A shallow embedding of [clean_text], [get_page_content], [search_papers],
    [analyze_paper], [generate_markdown] and the analysis loop of [main],
    with the properties of the specification stated over it.

    Python [str] values are modelled by [string]; a character stands for the
    code point of the same number (0..255).  The external collaborators
    (newspaper's [Article], googlesearch's [search], ollama's [chat], the
    clock, [time.sleep], [print] and the Streamlit widgets) are parameters
    acting on an abstract world. *)

From Stdlib Require Import String Ascii List ZArith NArith Arith Bool Lia.
From Stdlib Require Import DecimalString.
Import ListNotations.

Open Scope list_scope.
Open Scope string_scope.

(** ** Python strings *)

Module PyStr.

(** [bool(s)] for a string: true exactly when it is not empty. *)
Definition truthy (s : string) : bool :=
  match s with
  | EmptyString => false
  | String _ _ => true
  end.

(** [c.isspace()], which is what [str.split()] without an argument splits
    on: TAB..CR, FS..US, space, NEL and the no-break space. *)
Definition isspace (c : ascii) : bool :=
  let n := N_of_ascii c in
  ((9 <=? n) && (n <=? 13) || (28 <=? n) && (n <=? 32)
   || (n =? 133) || (n =? 160))%N.

(** [s.split()]: the maximal runs of non-space characters, in order.
    [cur] is the run being read. *)
Fixpoint split_from (cur : string) (s : string) : list string :=
  match s with
  | EmptyString => if truthy cur then [cur] else []
  | String c rest =>
      if isspace c
      then (if truthy cur then cur :: split_from "" rest
            else split_from "" rest)
      else split_from (cur ++ String c "") rest
  end.

Definition split (s : string) : list string := split_from "" s.

(** [sep.join(parts)]. *)
Fixpoint join (sep : string) (parts : list string) : string :=
  match parts with
  | [] => ""
  | [p] => p
  | p :: rest => p ++ sep ++ join sep rest
  end.

(** [s[:n]]. *)
Fixpoint take (n : nat) (s : string) : string :=
  match n, s with
  | S k, String c rest => String c (take k rest)
  | _, _ => ""
  end.

(** [s.startswith(p)]. *)
Definition startswith (s p : string) : bool := String.prefix p s.

(** [s.split("\n")]: the lines of [s]. *)
Definition nl : ascii := "010"%char.

Fixpoint lines (s : string) : list string :=
  match s with
  | EmptyString => [""]
  | String c rest =>
      if Ascii.eqb c nl then "" :: lines rest
      else match lines rest with
           | [] => [String c ""]
           | l :: ls => String c l :: ls
           end
  end.

(** ["\n" not in s]. *)
Fixpoint no_nl (s : string) : bool :=
  match s with
  | EmptyString => true
  | String c rest => negb (Ascii.eqb c nl) && no_nl rest
  end.

(** [str(n)] for a natural number. *)
Definition str_nat (n : nat) : string := NilZero.string_of_uint (Nat.to_uint n).

(** [s * n], used to build long inputs. *)
Fixpoint repeat_str (s : string) (n : nat) : string :=
  match n with
  | O => ""
  | S k => s ++ repeat_str s k
  end.

End PyStr.

(** ** [clean_text] *)

(** [clean_text(text)]: [""] for a falsy text, else the words of [text]
    joined by single spaces. *)
Definition clean_text (text : string) : string :=
  if negb (PyStr.truthy text) then ""
  else
    let cleaned := PyStr.join " " (PyStr.split text) in
    cleaned.

(** ** Data model *)

(** The dict [{'title': .., 'body': .., 'link': ..}] built by
    [get_page_content]. *)
Record PageResult := mkPage {
  title : string;
  body : string;
  link : string
}.

(** The dict [{'title': .., 'link': .., 'body': .., 'analysis': ..}]
    appended to [papers_data] in [main]. *)
Record AnalyzedPaper := mkAnalyzed {
  paper_title : string;
  paper_link : string;
  paper_body : string;
  analysis : string
}.

(** What [get_page_content] reads of a parsed [Article]. *)
Record Article := mkArticle {
  article_title : string;
  article_text : string
}.

(** A [datetime] value. *)
Record datetime := mkDatetime {
  year : nat;
  month : nat;
  day : nat;
  hour : nat;
  minute : nat;
  second : nat;
  microsecond : nat
}.

(** A number written with at least [width] digits. *)
Definition zfill (width : nat) (n : nat) : string :=
  let digits := PyStr.str_nat n in
  PyStr.repeat_str "0" (width - String.length digits) ++ digits.

(** [t.strftime("%Y-%m-%d %H:%M:%S")]; the years a clock returns have four
    digits. *)
Definition strftime (t : datetime) : string :=
  PyStr.str_nat (year t) ++ "-" ++ zfill 2 (month t) ++ "-" ++ zfill 2 (day t)
  ++ " " ++ zfill 2 (hour t) ++ ":" ++ zfill 2 (minute t) ++ ":"
  ++ zfill 2 (second t).

(** ** Exceptions and effects *)

(** An instance of [Exception]; [str_of e] is [str(e)]. *)
Record Exception := mkException { str_of : string }.

Inductive outcome (A : Type) : Type :=
| Return (a : A)
| Raise (e : Exception).
Arguments Return {A} a.
Arguments Raise {A} e.

(** A computation over the world [W]: it returns or raises, and leaves a
    world behind either way. *)
Definition M (W A : Type) : Type := W -> outcome A * W.

Definition ret {W A} (a : A) : M W A := fun w => (Return a, w).

Definition raise {W A} (e : Exception) : M W A := fun w => (Raise e, w).

Definition bind {W A B} (m : M W A) (k : A -> M W B) : M W B :=
  fun w =>
    match m w with
    | (Return a, w') => k a w'
    | (Raise e, w') => (Raise e, w')
    end.

(** [try: m  except Exception as e: handler e]. *)
Definition try_except {W A} (m : M W A) (handler : Exception -> M W A) : M W A :=
  fun w =>
    match m w with
    | (Return a, w') => (Return a, w')
    | (Raise e, w') => handler e w'
    end.

(** A call that only acts on the world. *)
Definition effect {W} (f : W -> W) : M W unit := fun w => (Return tt, f w).

Declare Scope py_scope.
Delimit Scope py_scope with py.
Notation "x <- m ;; k" := (bind m (fun x => k))
  (at level 61, m at next level, right associativity) : py_scope.
Notation "m ;; k" := (bind m (fun _ => k))
  (at level 61, right associativity) : py_scope.

(** The sequence a generator produces: the values it yields and, when the
    iteration ends by an exception instead of [StopIteration], that
    exception. *)
Record generated (A : Type) := mkGenerated {
  yielded : list A;
  failure : option Exception
}.
Arguments mkGenerated {A} yielded failure.
Arguments yielded {A} g.
Arguments failure {A} g.

(** The collaborators of [app.py].  [Article_parse url] stands for
    [Article(url)], [download()] and [parse()]; [Article_nlp a] for
    [a.nlp()] followed by reading [a.summary]; [search q n] for iterating
    [search(q, num_results=n)]; [chat prompt] for the [chat] call with model
    'llama3.1' followed by [response['message']['content']].  These may raise
    instances of [Exception].  The search is taken to produce a finite
    sequence, and to act on the world when the iteration starts.
    [time.sleep], [print] and the Streamlit calls only act on the world;
    [datetime_now] reads the clock. *)
Record Collaborators (W : Type) := mkCollaborators {
  Article_parse : string -> M W Article;
  Article_nlp : Article -> M W string;
  search : string -> Z -> W -> generated string * W;
  chat : string -> M W string;
  time_sleep : Z -> W -> W;
  print : string -> W -> W;
  st_error : string -> W -> W;
  st_warning_no_papers : W -> W;
  st_warning_no_query : W -> W;
  st_progress : nat -> nat -> W -> W;
  st_progress_clear : W -> W;
  datetime_now : W -> datetime
}.
Arguments Article_parse {W} c.
Arguments Article_nlp {W} c.
Arguments search {W} c.
Arguments chat {W} c.
Arguments time_sleep {W} c.
Arguments print {W} c.
Arguments st_error {W} c.
Arguments st_warning_no_papers {W} c.
Arguments st_warning_no_query {W} c.
Arguments st_progress {W} c.
Arguments st_progress_clear {W} c.
Arguments datetime_now {W} c.

(** ** The pipeline *)

Section Pipeline.

Context {W : Type} (C : Collaborators W).

Local Open Scope py_scope.

Definition inaccessible_body : string :=
  "Content not accessible - might be a PDF or protected content".

(** The body of the outer [try] of [get_page_content]. *)
Definition get_page_content_try (url : string) : M W PageResult :=
  article <- Article_parse C url ;;
  summary <- try_except (Article_nlp C article) (fun _ => ret "") ;;
  let title := if PyStr.truthy (article_title article)
               then article_title article else url in
  let content := if PyStr.truthy summary then summary
                 else article_text article in
  if negb (PyStr.truthy title) && negb (PyStr.truthy content)
  then ret (mkPage url inaccessible_body url)
  else ret (mkPage (clean_text title)
                   (clean_text (PyStr.take 1500 content))
                   url).

(** [get_page_content(url)]. *)
Definition get_page_content (url : string) : M W PageResult :=
  try_except (get_page_content_try url)
    (fun e => ret (mkPage url ("Error extracting content: " ++ str_of e) url)).

Definition default_domains : list string := ["arxiv.org"; "scholar.google.com"].

(** [search_domains] after the first statement of [search_papers]: the
    argument is [None] or a list, and both [None] and [[]] are falsy. *)
Definition effective_domains (search_domains : option (list string)) : list string :=
  match search_domains with
  | None | Some [] => default_domains
  | Some (d :: ds) => d :: ds
  end.

Definition academic_query (query : string) (search_domains : option (list string)) : string :=
  let domain_query :=
    PyStr.join " OR " (map (fun domain => "site:" ++ domain)
                           (effective_domains search_domains)) in
  query ++ " (research OR paper OR study OR journal) (" ++ domain_query ++ ")".

(** The test guarding [results.append(paper_info)]. *)
Definition keeps (paper_info : PageResult) : bool :=
  PyStr.truthy (body paper_info)
  && negb (PyStr.startswith (body paper_info) "Error extracting content").

(** The [for url in search(..)] loop: [urls] are the values still to come,
    [fin] how the iteration ends, [results] the list built so far. *)
Fixpoint search_loop (urls : list string) (fin : option Exception)
    (results : list PageResult) : M W (list PageResult) :=
  match urls with
  | [] =>
      match fin with
      | None => ret results
      | Some e => raise e
      end
  | url :: rest =>
      paper_info <- get_page_content url ;;
      let results := if keeps paper_info then (results ++ [paper_info])%list
                     else results in
      effect (time_sleep C 2) ;;
      search_loop rest fin results
  end.

(** [search_papers(query, max_results, search_domains)]. *)
Definition search_papers (query : string) (max_results : Z)
    (search_domains : option (list string)) : M W (list PageResult) :=
  try_except
    (fun w =>
       let (g, w') := search C (academic_query query search_domains) max_results w in
       search_loop (yielded g) (failure g) [] w')
    (fun e =>
       effect (st_error C ("Search error: " ++ str_of e)) ;;
       ret []).

Definition NL : string := String PyStr.nl "".

Definition analysis_prompt (paper_info : PageResult) : string :=
  NL ++ "    Please analyze this research paper/article and provide:" ++ NL
  ++ "    1. Key findings" ++ NL
  ++ "    2. Main methodology" ++ NL
  ++ "    3. Potential relevance to the research topic" ++ NL
  ++ "    " ++ NL
  ++ "    Paper Title: " ++ title paper_info ++ NL
  ++ "    Paper Link: " ++ link paper_info ++ NL
  ++ "    Description: " ++ body paper_info ++ NL
  ++ "    " ++ NL
  ++ "    Please be concise and focus on the most important points." ++ NL
  ++ "    If the content is not accessible or unclear, please indicate that in your analysis." ++ NL
  ++ "    ".

(** [analyze_paper(paper_info)]. *)
Definition analyze_paper (paper_info : PageResult) : M W string :=
  let prompt := analysis_prompt paper_info in
  try_except (chat C prompt)
    (fun e =>
       effect (print C (str_of e)) ;;
       ret ("Analysis error: " ++ str_of e)).

Definition markdown_header (search_query : string) (now : datetime) : string :=
  "# Literature Review Results" ++ NL
  ++ "## Search Query: " ++ search_query ++ NL
  ++ "*Generated on: " ++ strftime now ++ "*" ++ NL
  ++ NL.

Definition markdown_section (idx : nat) (paper : AnalyzedPaper) : string :=
  NL ++ "## " ++ PyStr.str_nat idx ++ ". " ++ paper_title paper ++ NL
  ++ NL
  ++ "**Link:** " ++ paper_link paper ++ NL
  ++ NL
  ++ "**Description:**" ++ NL
  ++ paper_body paper ++ NL
  ++ NL
  ++ "**AI Analysis:**" ++ NL
  ++ analysis paper ++ NL
  ++ NL
  ++ "---" ++ NL.

(** The [for idx, paper in enumerate(papers_data, 1)] loop, [idx] being
    the number of the next paper. *)
Fixpoint markdown_loop (idx : nat) (papers_data : list AnalyzedPaper)
    (markdown_content : string) : string :=
  match papers_data with
  | [] => markdown_content
  | paper :: rest =>
      markdown_loop (S idx) rest (markdown_content ++ markdown_section idx paper)
  end.

(** [generate_markdown(papers_data, search_query)] in the world [w], whose
    clock it reads. *)
Definition generate_markdown (papers_data : list AnalyzedPaper)
    (search_query : string) (w : W) : string :=
  let markdown_content := markdown_header search_query (datetime_now C w) in
  markdown_loop 1 papers_data markdown_content.

(** The [for i, paper in enumerate(papers)] loop of [main]; [total] is
    [len(papers)] and [i] the index of the next paper. *)
Fixpoint analyze_loop (total : nat) (i : nat) (papers : list PageResult)
    (papers_data : list AnalyzedPaper) : M W (list AnalyzedPaper) :=
  match papers with
  | [] => ret papers_data
  | paper :: rest =>
      effect (st_progress C (i + 1) total) ;;
      analysis <- analyze_paper paper ;;
      analyze_loop total (S i) rest
        (papers_data ++ [mkAnalyzed (title paper) (link paper) (body paper) analysis])%list
  end.

(** The body of [if st.button(..)] in [main]: the papers analysed and the
    markdown generated, or [None] when a warning is shown instead. *)
Definition main_search_and_analyze (search_query : string) (max_results : Z)
    (search_domains : option (list string))
    : M W (option (list AnalyzedPaper * string)) :=
  if PyStr.truthy search_query then
    papers <- search_papers search_query max_results search_domains ;;
    match papers with
    | _ :: _ =>
        papers_data <- analyze_loop (List.length papers) 0 papers [] ;;
        effect (st_progress_clear C) ;;
        (fun w => (Return (Some (papers_data,
                                 generate_markdown papers_data search_query w)), w))
    | [] =>
        effect (st_warning_no_papers C) ;;
        ret None
    end
  else
    effect (st_warning_no_query C) ;;
    ret None.

End Pipeline.

(** ** Notions used to state the properties *)

(** The summary [get_page_content] ends up with: [article.summary] when
    [nlp()] returns, [""] when it raises. *)
Definition summary_of (o : outcome string) : string :=
  match o with
  | Return s => s
  | Raise _ => ""
  end.

(** The pages a run of the search loop extracts from [urls], kept or not,
    with the pause after each. *)
Fixpoint extract_all {W} (C : Collaborators W) (urls : list string) (w : W)
    : list PageResult * W :=
  match urls with
  | [] => ([], w)
  | url :: rest =>
      match get_page_content C url w with
      | (Return page, w1) =>
          let (pages, w2) := extract_all C rest (time_sleep C 2 w1) in
          (page :: pages, w2)
      | (Raise _, w1) => ([], w1)
      end
  end.

(** A line that opens a second-level markdown section. *)
Definition is_h2 (line : string) : bool := PyStr.startswith line "## ".

Definition h2_lines (markdown : string) : list string :=
  filter is_h2 (PyStr.lines markdown).

(** The heading [generate_markdown] writes for each paper, numbered from
    [idx]. *)
Fixpoint paper_headings (idx : nat) (papers_data : list AnalyzedPaper) : list string :=
  match papers_data with
  | [] => []
  | paper :: rest =>
      ("## " ++ PyStr.str_nat idx ++ ". " ++ paper_title paper)
        :: paper_headings (S idx) rest
  end.

(** A paper whose fields bring no heading of their own into the report. *)
Definition plain_paper (paper : AnalyzedPaper) : Prop :=
  PyStr.no_nl (paper_title paper) = true
  /\ PyStr.no_nl (paper_link paper) = true
  /\ h2_lines (paper_body paper) = []
  /\ h2_lines (analysis paper) = [].

(** [lines] written one per line, each closed by a line break, before
    [rest]. *)
Fixpoint unlines (lines : list string) (rest : string) : string :=
  match lines with
  | [] => rest
  | l :: ls => l ++ NL ++ unlines ls rest
  end.

(** The template of the header of the report, line by line. *)
Definition header_lines (search_query : string) (now : datetime) : list string :=
  [ "# Literature Review Results";
    "## Search Query: " ++ search_query;
    "*Generated on: " ++ strftime now ++ "*";
    "" ].

(** The template of the section of one paper, line by line. *)
Definition section_lines (idx : nat) (paper : AnalyzedPaper) : list string :=
  [ "";
    "## " ++ PyStr.str_nat idx ++ ". " ++ paper_title paper;
    "";
    "**Link:** " ++ paper_link paper;
    "";
    "**Description:**";
    paper_body paper;
    "";
    "**AI Analysis:**";
    analysis paper;
    "";
    "---" ].

(** The result the specification words for a successful extraction:
    normalise, then cut to 1500 characters. *)
Definition spec_page_result (title content url : string) : PageResult :=
  mkPage (clean_text title) (PyStr.take 1500 (clean_text content)) url.

(** ** Scripted collaborators

    A world that records what was done to it, and collaborators that answer
    from fixed tables; used to run the pipeline on concrete inputs. *)

Module Scripted.

Inductive event :=
| Slept (seconds : Z)
| Printed (text : string)
| StError (text : string)
| WarnedNoPapers
| WarnedNoQuery
| Progress (done total : nat)
| ProgressCleared.

Record world := mkWorld {
  clock : datetime;
  events : list event
}.

Definition record (e : event) (w : world) : world :=
  mkWorld (clock w) (events w ++ [e])%list.

Definition answer {A} (o : outcome A) : M world A := fun w => (o, w).

Definition collaborators
    (pages : string -> outcome Article)
    (summaries : Article -> outcome string)
    (found : string -> Z -> generated string)
    (replies : string -> outcome string) : Collaborators world :=
  {| Article_parse := fun url => answer (pages url);
     Article_nlp := fun a => answer (summaries a);
     search := fun q n w => (found q n, w);
     chat := fun prompt => answer (replies prompt);
     time_sleep := fun s => record (Slept s);
     print := fun s => record (Printed s);
     st_error := fun s => record (StError s);
     st_warning_no_papers := record WarnedNoPapers;
     st_warning_no_query := record WarnedNoQuery;
     st_progress := fun i n => record (Progress i n);
     st_progress_clear := record ProgressCleared;
     datetime_now := clock |}.

Definition noon : datetime := mkDatetime 2024 11 5 12 0 7 0.

Definition w0 : world := mkWorld noon [].

(** The same second, a few microseconds later. *)
Definition w0_later : world := mkWorld (mkDatetime 2024 11 5 12 0 7 350) [].

Definition url_ok : string := "https://arxiv.org/abs/1706.03762".
Definition url_down : string := "https://arxiv.org/abs/0000.00000".
Definition url_blank : string := "https://arxiv.org/pdf/1706.03762".
Definition url_long : string := "https://arxiv.org/abs/2005.14165".
Definition url_report : string := "https://arxiv.org/abs/1234.56789".

(** A text of 1501 characters: "a", 1499 spaces, "b". *)
Definition long_text : string :=
  "a" ++ PyStr.repeat_str " " 1499 ++ "b".

Definition pages (url : string) : outcome Article :=
  if String.eqb url url_ok then
    Return (mkArticle "Attention Is All You Need"
                      ("The dominant  sequence transduction models" ++ NL ++ "are based on RNNs."))
  else if String.eqb url url_blank then Return (mkArticle "" "")
  else if String.eqb url url_long then Return (mkArticle "Long" long_text)
  else if String.eqb url url_report then
    Return (mkArticle "Report" "Error extracting content from scans is a common problem.")
  else if String.eqb url "" then Return (mkArticle "" "")
  else Raise (mkException "Article `download()` failed with timed out").

(** [nlp()] fails, as it does when its tokenizer data is not installed. *)
Definition summaries (a : Article) : outcome string :=
  Raise (mkException "Resource punkt not found.").

Definition found_urls (urls : list string) (q : string) (n : Z) : generated string :=
  mkGenerated (firstn (Z.to_nat n) urls) None.

Definition replies (prompt : string) : outcome string :=
  Return "Key findings: attention suffices.".

Definition replies_down (prompt : string) : outcome string :=
  Raise (mkException "connection refused").

(** Collaborators whose search finds [urls] and whose model answers. *)
Definition run (urls : list string) : Collaborators world :=
  collaborators pages summaries (found_urls urls) replies.

(** The same, with the model backend down. *)
Definition run_model_down (urls : list string) : Collaborators world :=
  collaborators pages summaries (found_urls urls) replies_down.

(** What [get_page_content] makes of [url_ok]. *)
Definition page_ok : PageResult :=
  mkPage "Attention Is All You Need"
         "The dominant sequence transduction models are based on RNNs."
         url_ok.

(** A paper whose analysis brings a heading of its own. *)
Definition paper_with_heading : AnalyzedPaper :=
  mkAnalyzed "Attention Is All You Need" url_ok
             "The dominant sequence transduction models are based on RNNs."
             ("## 1. Key findings" ++ NL ++ "Attention suffices." ++ NL
              ++ "## 2. Main methodology" ++ NL ++ "Self-attention layers.").

Definition paper_plain : AnalyzedPaper :=
  mkAnalyzed "Attention Is All You Need" url_ok
             "The dominant sequence transduction models are based on RNNs."
             "Key findings: attention suffices.".

End Scripted.

(** ** Further notions: normalised text, subsequences, file names, traces *)

(** No character of [s] is whitespace. *)
Fixpoint no_space (s : string) : bool :=
  match s with
  | EmptyString => true
  | String c rest => negb (PyStr.isspace c) && no_space rest
  end.

(** A word: not empty, and without whitespace. *)
Definition is_word (w : string) : bool := PyStr.truthy w && no_space w.

(** Every character of [s] is whitespace. *)
Fixpoint blank (s : string) : bool :=
  match s with
  | EmptyString => true
  | String c rest => PyStr.isspace c && blank rest
  end.

(** [s] without its whitespace characters. *)
Fixpoint drop_spaces (s : string) : string :=
  match s with
  | EmptyString => ""
  | String c rest =>
      if PyStr.isspace c then drop_spaces rest else String c (drop_spaces rest)
  end.

(** The rest [s] of a text is single-spaced: its only whitespace characters
    are spaces, none follows a space or the start ([after_space]), and none
    ends the text. *)
Fixpoint spaced_from (after_space : bool) (s : string) : bool :=
  match s with
  | EmptyString => negb after_space
  | String c rest =>
      if Ascii.eqb c " "%char then negb after_space && spaced_from true rest
      else negb (PyStr.isspace c) && spaced_from false rest
  end.

(** A text in normal form: empty, or words separated by single spaces. *)
Definition single_spaced (s : string) : bool :=
  negb (PyStr.truthy s) || spaced_from true s.

(** [l1] is [l2] with some elements left out, the order kept. *)
Inductive subsequence {A : Type} : list A -> list A -> Prop :=
| subsequence_nil : subsequence [] []
| subsequence_skip (x : A) (l1 l2 : list A) :
    subsequence l1 l2 -> subsequence l1 (x :: l2)
| subsequence_keep (x : A) (l1 l2 : list A) :
    subsequence l1 l2 -> subsequence (x :: l1) (x :: l2).

(** [t.strftime('%Y%m%d_%H%M%S')]. *)
Definition strftime_compact (t : datetime) : string :=
  PyStr.str_nat (year t) ++ zfill 2 (month t) ++ zfill 2 (day t) ++ "_"
  ++ zfill 2 (hour t) ++ zfill 2 (minute t) ++ zfill 2 (second t).

(** The [file_name] of the download button of [main], for the clock reading
    [now]. *)
Definition download_file_name (now : datetime) : string :=
  "literature_review_" ++ strftime_compact now ++ ".md".

(** A lower-case letter, a digit, an underscore or a dot. *)
Definition file_name_char (c : ascii) : bool :=
  let n := N_of_ascii c in
  ((97 <=? n) && (n <=? 122) || (48 <=? n) && (n <=? 57)
   || (n =? 95) || (n =? 46))%N.

Fixpoint all_chars (f : ascii -> bool) (s : string) : bool :=
  match s with
  | EmptyString => true
  | String c rest => f c && all_chars f rest
  end.

(** The events a scripted run of the search loop adds: a pause of two
    seconds per URL. *)
Definition pauses (urls : list string) : list Scripted.event :=
  map (fun _ => Scripted.Slept 2) urls.

(** The events a scripted run of the analysis loop adds for [papers], the
    first of them having index [i]: a progress tick per paper, followed by
    the printed message when the model call fails. *)
Fixpoint analysis_events (replies : string -> outcome string) (total i : nat)
    (papers : list PageResult) : list Scripted.event :=
  match papers with
  | [] => []
  | paper :: rest =>
      Scripted.Progress (i + 1) total
        :: match replies (analysis_prompt paper) with
           | Return _ => analysis_events replies total (S i) rest
           | Raise e =>
               Scripted.Printed (str_of e)
                 :: analysis_events replies total (S i) rest
           end
  end.

Definition is_progress (e : Scripted.event) : bool :=
  match e with
  | Scripted.Progress _ _ => true
  | _ => false
  end.

(** * Properties *)

(** ** Strings *)

Lemma truthy_false_iff (s : string) : PyStr.truthy s = false <-> s = "".
Proof. destruct s; simpl; split; congruence. Qed.

Lemma truthy_true_iff (s : string) : PyStr.truthy s = true <-> s <> "".
Proof. destruct s; simpl; split; congruence. Qed.

Lemma length_app (a b : string) :
  String.length (a ++ b) = String.length a + String.length b.
Proof. induction a as [|c a IH]; simpl; [reflexivity | now rewrite IH]. Qed.

Lemma length_join_cons (sep p : string) (ps : list string) :
  String.length (PyStr.join sep (p :: ps))
  <= String.length p + String.length sep + String.length (PyStr.join sep ps).
Proof.
  destruct ps as [|p' ps].
  - simpl. lia.
  - change (PyStr.join sep (p :: p' :: ps))
      with (p ++ sep ++ PyStr.join sep (p' :: ps)).
    rewrite !length_app. lia.
Qed.

Lemma length_join_split_from (s cur : string) :
  String.length (PyStr.join " " (PyStr.split_from cur s))
  <= String.length cur + String.length s.
Proof.
  revert cur. induction s as [|c s IH]; intros cur.
  - simpl. destruct (PyStr.truthy cur); simpl; lia.
  - cbn [PyStr.split_from]. destruct (PyStr.isspace c).
    + destruct (PyStr.truthy cur).
      * etransitivity; [apply length_join_cons|].
        specialize (IH ""). simpl in *. lia.
      * specialize (IH ""). simpl in *. lia.
    + specialize (IH (cur ++ String c "")).
      rewrite length_app in IH. simpl in *. lia.
Qed.

(** Normalising never lengthens a text. *)
Lemma length_clean_text (s : string) :
  String.length (clean_text s) <= String.length s.
Proof.
  unfold clean_text. destruct (PyStr.truthy s); simpl; [|lia].
  apply (length_join_split_from s "").
Qed.

Lemma length_take (n : nat) (s : string) : String.length (PyStr.take n s) <= n.
Proof.
  revert s. induction n as [|n IH]; intros [|c s]; simpl; try lia.
  specialize (IH s). lia.
Qed.

Lemma startswith_app (p s : string) : PyStr.startswith (p ++ s) p = true.
Proof.
  unfold PyStr.startswith. induction p as [|c p IH]; simpl.
  - destruct s; reflexivity.
  - destruct (ascii_dec c c); [exact IH | congruence].
Qed.

(** A string that starts with [p ++ q] starts with [p]. *)
Lemma startswith_shorter (s p q : string) :
  PyStr.startswith s (p ++ q) = true -> PyStr.startswith s p = true.
Proof.
  unfold PyStr.startswith. revert s.
  induction p as [|c p IH]; intros [|d s] H; simpl in *;
    try reflexivity; try discriminate.
  destruct (ascii_dec c d); [now apply IH | discriminate].
Qed.

Lemma lines_not_nil (s : string) : PyStr.lines s <> [].
Proof.
  destruct s as [|c s]; simpl; [discriminate|].
  destruct (Ascii.eqb c PyStr.nl); [discriminate|].
  destruct (PyStr.lines s); discriminate.
Qed.

(** A line break splits the lines of a text in two groups. *)
Lemma lines_app_nl (a b : string) :
  PyStr.lines (a ++ String PyStr.nl b) = (PyStr.lines a ++ PyStr.lines b)%list.
Proof.
  induction a as [|c a IH].
  - reflexivity.
  - change (String c a ++ String PyStr.nl b) with (String c (a ++ String PyStr.nl b)).
    cbn [PyStr.lines]. rewrite IH.
    destruct (Ascii.eqb c PyStr.nl); [reflexivity|].
    pose proof (lines_not_nil a) as Hne.
    destruct (PyStr.lines a); [congruence | reflexivity].
Qed.

Lemma lines_no_nl (s : string) : PyStr.no_nl s = true -> PyStr.lines s = [s].
Proof.
  induction s as [|c s IH]; simpl; intros H; [reflexivity|].
  apply andb_prop in H as [Hc Hs].
  apply negb_true_iff in Hc. rewrite Hc, (IH Hs). reflexivity.
Qed.

Lemma no_nl_app (a b : string) :
  PyStr.no_nl (a ++ b) = PyStr.no_nl a && PyStr.no_nl b.
Proof.
  induction a as [|c a IH]; simpl; [reflexivity|].
  rewrite IH. now rewrite andb_assoc.
Qed.

Lemma no_nl_digits (d : Decimal.uint) :
  PyStr.no_nl (NilEmpty.string_of_uint d) = true.
Proof. induction d; simpl; auto. Qed.

Lemma no_nl_str_nat (n : nat) : PyStr.no_nl (PyStr.str_nat n) = true.
Proof.
  unfold PyStr.str_nat, NilZero.string_of_uint.
  destruct (Nat.to_uint n); try reflexivity; apply no_nl_digits.
Qed.

Lemma no_nl_repeat_zero (n : nat) : PyStr.no_nl (PyStr.repeat_str "0" n) = true.
Proof. induction n; simpl; auto. Qed.

Lemma no_nl_zfill (width n : nat) : PyStr.no_nl (zfill width n) = true.
Proof.
  unfold zfill. now rewrite no_nl_app, no_nl_repeat_zero, no_nl_str_nat.
Qed.

Lemma no_nl_strftime (t : datetime) : PyStr.no_nl (strftime t) = true.
Proof.
  unfold strftime.
  repeat (rewrite no_nl_app; simpl).
  now rewrite no_nl_str_nat, !no_nl_zfill.
Qed.

(** ** The page extractor *)

Section Extractor.

Context {W : Type} (C : Collaborators W).

(** [get_page_content] unfolded along the outcomes of its collaborators. *)
Lemma get_page_content_unfold (url : string) (w : W) :
  get_page_content C url w =
  match Article_parse C url w with
  | (Raise e, w1) =>
      (Return (mkPage url ("Error extracting content: " ++ str_of e) url), w1)
  | (Return a, w1) =>
      let (o, w2) := Article_nlp C a w1 in
      let title := if PyStr.truthy (article_title a) then article_title a else url in
      let content := if PyStr.truthy (summary_of o) then summary_of o
                     else article_text a in
      (Return (if negb (PyStr.truthy title) && negb (PyStr.truthy content)
               then mkPage url inaccessible_body url
               else mkPage (clean_text title)
                           (clean_text (PyStr.take 1500 content)) url),
       w2)
  end.
Proof.
  unfold get_page_content, get_page_content_try, try_except, bind, ret.
  destruct (Article_parse C url w) as [[a|e] w1]; [|reflexivity].
  destruct (Article_nlp C a w1) as [[s|e] w2]; simpl;
    match goal with
    | |- context [if ?b then _ else _] => destruct b; reflexivity
    end.
Qed.

Lemma get_page_content_returns (url : string) (w : W) :
  exists page w', get_page_content C url w = (Return page, w').
Proof.
  rewrite get_page_content_unfold.
  destruct (Article_parse C url w) as [[a|e] w1]; [|eauto].
  destruct (Article_nlp C a w1) as [o w2]. eauto.
Qed.

(** C1. [get_page_content] never raises: in every world and for every URL it
    returns a [PageResult]; and when fetching or parsing raises [e], the
    result is [{title: url, body: "Error extracting content: " + str(e),
    link: url}]. *)
Theorem get_page_content_never_raises (url : string) (w : W) :
  exists page w',
    get_page_content C url w = (Return page, w')
    /\ (forall e w1,
          Article_parse C url w = (Raise e, w1) ->
          page = mkPage url ("Error extracting content: " ++ str_of e) url
          /\ w' = w1).
Proof.
  destruct (get_page_content_returns url w) as (page & w' & H).
  exists page, w'. split; [exact H|].
  intros e w1 He. rewrite get_page_content_unfold, He in H.
  inversion H; subst. split; reflexivity.
Qed.

(** The "Content not accessible" branch: it is taken when the title after
    its fall-back to the URL, the summary and the parsed text are all empty,
    which the fall-back allows for the empty URL only. *)
Theorem get_page_content_inaccessible (url : string) (w : W)
    (a : Article) (w1 : W) (o : outcome string) (w2 : W) :
  Article_parse C url w = (Return a, w1) ->
  Article_nlp C a w1 = (o, w2) ->
  (if PyStr.truthy (article_title a) then article_title a else url) = "" ->
  summary_of o = "" ->
  article_text a = "" ->
  get_page_content C url w =
  (Return (mkPage url "Content not accessible - might be a PDF or protected content" url),
   w2).
Proof.
  intros Ha Ho Ht Hs Hx.
  rewrite get_page_content_unfold, Ha, Ho. cbv zeta.
  rewrite Ht, Hs, Hx. reflexivity.
Qed.

(** C5, as the code has it. When fetching and parsing succeed and the
    derived title or the content (the summary, or the parsed text if the
    summary is empty) is not empty, [get_page_content] returns
    [{title: clean_text(title), body: clean_text(content[:1500]), link: url}]:
    the content is cut to 1500 characters first and normalised after, and the
    body has at most 1500 characters. *)
Theorem get_page_content_success (url : string) (w : W)
    (a : Article) (w1 : W) (o : outcome string) (w2 : W) :
  Article_parse C url w = (Return a, w1) ->
  Article_nlp C a w1 = (o, w2) ->
  (if PyStr.truthy (article_title a) then article_title a else url) <> ""
  \/ (if PyStr.truthy (summary_of o) then summary_of o else article_text a) <> "" ->
  let title := if PyStr.truthy (article_title a) then article_title a else url in
  let content := if PyStr.truthy (summary_of o) then summary_of o
                 else article_text a in
  get_page_content C url w =
  (Return (mkPage (clean_text title) (clean_text (PyStr.take 1500 content)) url), w2)
  /\ String.length (clean_text (PyStr.take 1500 content)) <= 1500.
Proof.
  intros Ha Ho Hne title content. split.
  - rewrite get_page_content_unfold, Ha, Ho. cbv zeta.
    fold title content.
    assert (negb (PyStr.truthy title) && negb (PyStr.truthy content) = false) as ->;
      [|reflexivity].
    apply andb_false_iff.
    destruct Hne as [H|H]; [left|right];
      apply negb_false_iff, truthy_true_iff; exact H.
  - etransitivity; [apply length_clean_text | apply length_take].
Qed.

End Extractor.

(** ** The search orchestrator *)

Section Orchestrator.

Context {W : Type} (C : Collaborators W).

Lemma keeps_false_iff (p : PageResult) :
  keeps p = false
  <-> body p = "" \/ PyStr.startswith (body p) "Error extracting content" = true.
Proof.
  unfold keeps. rewrite andb_false_iff, negb_false_iff, truthy_false_iff.
  reflexivity.
Qed.

Lemma keeps_true_iff (p : PageResult) :
  keeps p = true
  <-> body p <> "" /\ PyStr.startswith (body p) "Error extracting content" = false.
Proof.
  unfold keeps. rewrite andb_true_iff, negb_true_iff, truthy_true_iff.
  reflexivity.
Qed.

(** The test of the loop also rejects the bodies [get_page_content] writes
    on failure, whose prefix ends in a colon and a space. *)
Lemma keeps_error_prefixed (p : PageResult) :
  PyStr.startswith (body p) "Error extracting content: " = true -> keeps p = false.
Proof.
  intros H. apply keeps_false_iff. right.
  apply (startswith_shorter (body p) "Error extracting content" ": "), H.
Qed.

Lemma keeps_inaccessible (p : PageResult) :
  body p = inaccessible_body -> keeps p = true.
Proof. unfold keeps. intros ->. reflexivity. Qed.

Lemma extract_all_length (urls : list string) (w : W) :
  List.length (fst (extract_all C urls w)) = List.length urls.
Proof.
  revert w. induction urls as [|url rest IH]; intros w; [reflexivity|].
  cbn [extract_all].
  destruct (get_page_content_returns C url w) as (page & w1 & ->).
  specialize (IH (time_sleep C 2 w1)).
  destruct (extract_all C rest (time_sleep C 2 w1)) as [pages w2].
  simpl in *. now rewrite IH.
Qed.

(** The loop appends to [results] the extracted pages that pass the test,
    in order, and then ends the way the iteration ends. *)
Lemma search_loop_unfold (urls : list string) (fin : option Exception)
    (results : list PageResult) (w : W) :
  search_loop C urls fin results w =
  match fin with
  | None => (Return (results ++ filter keeps (fst (extract_all C urls w)))%list,
             snd (extract_all C urls w))
  | Some e => (Raise e, snd (extract_all C urls w))
  end.
Proof.
  revert results w. induction urls as [|url rest IH]; intros results w.
  - simpl. destruct fin; [reflexivity|]. unfold ret. now rewrite app_nil_r.
  - cbn [search_loop extract_all]. unfold bind at 1.
    destruct (get_page_content_returns C url w) as (page & w1 & ->).
    unfold bind, effect. rewrite IH.
    destruct (extract_all C rest (time_sleep C 2 w1)) as [pages w2].
    cbn [fst snd filter].
    destruct fin; [reflexivity|].
    destruct (keeps page); [now rewrite <- app_assoc | reflexivity].
Qed.

(** [search_papers] unfolded: the pages of the URLs found that pass the test
    when the iteration ends normally, no page at all when it raises. *)
Lemma search_papers_unfold (query : string) (max_results : Z)
    (search_domains : option (list string)) (w : W) :
  let g := fst (search C (academic_query query search_domains) max_results w) in
  let w1 := snd (search C (academic_query query search_domains) max_results w) in
  search_papers C query max_results search_domains w =
  match failure g with
  | None => (Return (filter keeps (fst (extract_all C (yielded g) w1))),
             snd (extract_all C (yielded g) w1))
  | Some e => (Return [],
               st_error C ("Search error: " ++ str_of e)
                 (snd (extract_all C (yielded g) w1)))
  end.
Proof.
  unfold search_papers, try_except.
  destruct (search C (academic_query query search_domains) max_results w) as [g w1].
  cbn [fst snd]. rewrite search_loop_unfold.
  destruct (failure g); reflexivity.
Qed.

Lemma search_papers_returns (query : string) (max_results : Z)
    (search_domains : option (list string)) (w : W) :
  exists papers w',
    search_papers C query max_results search_domains w = (Return papers, w').
Proof.
  rewrite search_papers_unfold. cbv zeta.
  destruct (failure _); eauto.
Qed.

Lemma filter_length_le {A} (f : A -> bool) (l : list A) :
  List.length (filter f l) <= List.length l.
Proof.
  induction l as [|x l IH]; simpl; [lia|].
  destruct (f x); simpl; lia.
Qed.

(** C8. When the search yields at most [max_results] URLs, [search_papers]
    returns at most [max_results] pages; and when [search_domains] is empty
    ([None] or [[]]), the domains the academic query is built from are
    "arxiv.org" and "scholar.google.com". *)
Theorem search_papers_bound_and_default_domains (query : string) (max_results : Z)
    (search_domains : option (list string)) (w : W) :
  ((Z.of_nat (List.length
      (yielded (fst (search C (academic_query query search_domains) max_results w))))
    <= max_results)%Z ->
   exists papers w',
     search_papers C query max_results search_domains w = (Return papers, w')
     /\ (Z.of_nat (List.length papers) <= max_results)%Z)
  /\ (search_domains = None \/ search_domains = Some [] ->
      effective_domains search_domains = ["arxiv.org"; "scholar.google.com"]
      /\ academic_query query search_domains =
         query ++ " (research OR paper OR study OR journal) "
               ++ "(site:arxiv.org OR site:scholar.google.com)").
Proof.
  split.
  - intros Hlen. rewrite search_papers_unfold. cbv zeta.
    set (g := fst (search C (academic_query query search_domains) max_results w)) in *.
    set (w1 := snd (search C (academic_query query search_domains) max_results w)).
    destruct (failure g).
    + do 2 eexists. split; [reflexivity|]. simpl. lia.
    + do 2 eexists. split; [reflexivity|].
      pose proof (filter_length_le keeps (fst (extract_all C (yielded g) w1))) as Hf.
      rewrite extract_all_length in Hf. lia.
  - intros [-> | ->]; split; reflexivity.
Qed.

(** C2, as the code has it. [search_papers] returns, in order, the extracted
    pages whose body is not empty and does not start with "Error extracting
    content" (and no page when the search raises). So no returned page has
    a body starting with "Error extracting content: ", a page with the
    "Content not accessible ..." body is kept when the search ends normally,
    and the pages left out are those with an empty body or that prefix. *)
Theorem search_papers_filter (query : string) (max_results : Z)
    (search_domains : option (list string)) (w : W) :
  let g := fst (search C (academic_query query search_domains) max_results w) in
  let w1 := snd (search C (academic_query query search_domains) max_results w) in
  let pages := fst (extract_all C (yielded g) w1) in
  exists papers w',
    search_papers C query max_results search_domains w = (Return papers, w')
    /\ papers = match failure g with
                | None => filter keeps pages
                | Some _ => []
                end
    /\ (forall p, In p papers ->
          PyStr.startswith (body p) "Error extracting content: " = false)
    /\ (failure g = None ->
        forall p, In p pages ->
          body p = "Content not accessible - might be a PDF or protected content" ->
          In p papers)
    /\ (failure g = None ->
        forall p, In p pages ->
          (~ In p papers
           <-> body p = ""
               \/ PyStr.startswith (body p) "Error extracting content" = true)).
Proof.
  intros g w1 pages.
  pose proof (search_papers_unfold query max_results search_domains w) as H.
  cbv zeta in H. fold g w1 pages in H.
  destruct (failure g) as [e|] eqn:Hfin.
  - do 2 eexists. split; [exact H|]. split; [reflexivity|].
    repeat split; try (intros; discriminate). intros p [].
  - do 2 eexists. split; [exact H|]. split; [reflexivity|].
    split; [|split].
    + intros p Hin. apply filter_In in Hin as [_ Hk].
      destruct (PyStr.startswith (body p) "Error extracting content: ") eqn:E;
        [|reflexivity].
      apply keeps_error_prefixed in E. congruence.
    + intros _ p Hin Hb. apply filter_In. split; [exact Hin|].
      now apply keeps_inaccessible.
    + intros _ p Hin. rewrite <- keeps_false_iff, filter_In. split.
      * intros Hn. destruct (keeps p); [|reflexivity]. exfalso. auto.
      * intros Hk [_ Hk']. congruence.
Qed.

(** C10. Every page [search_papers] returns has a non-empty body. In
    particular a page that is fetched and parsed but has an empty summary
    and an empty text, its title falling back to a non-empty URL, comes out
    of [get_page_content] with the body [""], which neither starts with the
    error prefix nor is the "Content not accessible ..." body, and is not in
    the returned list. *)
Theorem search_papers_bodies_not_empty (query : string) (max_results : Z)
    (search_domains : option (list string)) (w : W) :
  exists papers w',
    search_papers C query max_results search_domains w = (Return papers, w')
    /\ Forall (fun p => body p <> "") papers
    /\ (forall url wa a wb o wc,
          Article_parse C url wa = (Return a, wb) ->
          Article_nlp C a wb = (o, wc) ->
          summary_of o = "" -> article_text a = "" -> url <> "" ->
          exists page,
            get_page_content C url wa = (Return page, wc)
            /\ body page = ""
            /\ PyStr.startswith (body page) "Error extracting content" = false
            /\ body page <> inaccessible_body
            /\ ~ In page papers).
Proof.
  pose proof (search_papers_unfold query max_results search_domains w) as H.
  cbv zeta in H.
  set (g := fst (search C (academic_query query search_domains) max_results w)) in *.
  set (w1 := snd (search C (academic_query query search_domains) max_results w)) in *.
  set (papers := match failure g with
                 | None => filter keeps (fst (extract_all C (yielded g) w1))
                 | Some _ => []
                 end).
  assert (Hall : Forall (fun p => body p <> "") papers).
  { subst papers. destruct (failure g); [constructor|].
    apply Forall_forall. intros p Hin. apply filter_In in Hin as [_ Hk].
    now apply keeps_true_iff in Hk. }
  exists papers, (snd (search_papers C query max_results search_domains w)).
  split.
  { subst papers. rewrite H. destruct (failure g); reflexivity. }
  split; [exact Hall|].
  intros url wa a wb o wc Ha Ho Hs Hx Hu.
  eexists. split.
  { rewrite get_page_content_unfold, Ha, Ho. cbv zeta. rewrite Hs, Hx.
    cbn [PyStr.truthy].
    assert (PyStr.truthy (if PyStr.truthy (article_title a)
                          then article_title a else url) = true) as ->.
    { destruct (PyStr.truthy (article_title a)) eqn:E; [exact E|].
      now apply truthy_true_iff. }
    reflexivity. }
  cbn [body]. repeat split; try reflexivity; try discriminate.
  intros Hin. rewrite Forall_forall in Hall. now apply (Hall _ Hin).
Qed.

End Orchestrator.

(** ** The paper analyzer and the analysis loop *)

Section Analyzer.

Context {W : Type} (C : Collaborators W).

(** C9. [analyze_paper] never raises: it always returns a string, which is
    "Analysis error: " followed by the message when the model call raises,
    and the text of the model's response otherwise. *)
Theorem analyze_paper_never_raises (paper_info : PageResult) (w : W) :
  exists text w',
    analyze_paper C paper_info w = (Return text, w')
    /\ (forall e w1,
          chat C (analysis_prompt paper_info) w = (Raise e, w1) ->
          text = "Analysis error: " ++ str_of e
          /\ w' = print C (str_of e) w1)
    /\ (forall response w1,
          chat C (analysis_prompt paper_info) w = (Return response, w1) ->
          text = response /\ w' = w1).
Proof.
  unfold analyze_paper, try_except, bind, effect, ret.
  destruct (chat C (analysis_prompt paper_info) w) as [[response|e] w1].
  - exists response, w1. repeat split; intros; congruence.
  - do 2 eexists. split; [reflexivity|]. split.
    + intros e' w1' [= <- <-]. split; reflexivity.
    + intros; discriminate.
Qed.

Lemma analyze_paper_returns (paper_info : PageResult) (w : W) :
  exists text w', analyze_paper C paper_info w = (Return text, w').
Proof.
  unfold analyze_paper, try_except, bind, effect, ret.
  destruct (chat C (analysis_prompt paper_info) w) as [[response|e] w1]; eauto.
Qed.

(** The loop appends one record per page, carrying the page's title, link and
    body. *)
Lemma analyze_loop_appends (papers : list PageResult) (total i : nat)
    (papers_data : list AnalyzedPaper) (w : W) :
  exists added w',
    analyze_loop C total i papers papers_data w
    = (Return (papers_data ++ added)%list, w')
    /\ map paper_link added = map link papers
    /\ map paper_title added = map title papers
    /\ map paper_body added = map body papers.
Proof.
  revert i papers_data w.
  induction papers as [|paper rest IH]; intros i papers_data w.
  - exists [], w. simpl. unfold ret. rewrite app_nil_r. auto.
  - cbn [analyze_loop]. unfold bind at 1. unfold effect at 1. unfold bind at 1.
    destruct (analyze_paper_returns paper (st_progress C (i + 1) total w))
      as (text & w1 & ->).
    destruct (IH (S i)
                (papers_data ++ [mkAnalyzed (title paper) (link paper) (body paper) text])%list
                w1)
      as (added & w' & -> & Hl & Ht & Hb).
    exists (mkAnalyzed (title paper) (link paper) (body paper) text :: added), w'.
    rewrite <- app_assoc. simpl. rewrite Hl, Ht, Hb. auto.
Qed.

(** C3. When the search returns a non-empty list of pages, the analysis loop
    of [main] produces one analysed paper per page: as many as there are
    pages, in the same order, the i-th with the link (and the title and the
    body) of the i-th page; the report is generated from that list. *)
Theorem main_one_analysis_per_page (search_query : string) (max_results : Z)
    (search_domains : option (list string)) (w w1 : W)
    (papers : list PageResult) :
  search_query <> "" ->
  search_papers C search_query max_results search_domains w = (Return papers, w1) ->
  papers <> [] ->
  exists papers_data markdown w2,
    main_search_and_analyze C search_query max_results search_domains w
    = (Return (Some (papers_data, markdown)), w2)
    /\ List.length papers_data = List.length papers
    /\ map paper_link papers_data = map link papers
    /\ map paper_title papers_data = map title papers
    /\ map paper_body papers_data = map body papers
    /\ markdown = generate_markdown C papers_data search_query w2.
Proof.
  intros Hq Hs Hne.
  unfold main_search_and_analyze.
  apply truthy_true_iff in Hq. rewrite Hq.
  unfold bind at 1. rewrite Hs.
  destruct papers as [|paper rest]; [congruence|].
  destruct (analyze_loop_appends (paper :: rest) (List.length (paper :: rest)) 0 [] w1)
    as (added & w' & Hloop & Hl & Ht & Hb).
  unfold bind at 1. rewrite Hloop. unfold bind, effect.
  exists added. do 2 eexists. split; [reflexivity|].
  repeat split; try assumption.
  rewrite <- (length_map paper_link added), Hl. apply length_map.
Qed.

End Analyzer.

(** ** The report generator *)

Lemma append_assoc (a b c : string) : (a ++ b) ++ c = a ++ b ++ c.
Proof. induction a as [|x a IH]; simpl; [reflexivity | now rewrite IH]. Qed.

Lemma append_empty_r (a : string) : a ++ "" = a.
Proof. induction a as [|x a IH]; simpl; [reflexivity | now rewrite IH]. Qed.

Lemma h2_lines_app_nl (a b : string) :
  h2_lines (a ++ NL ++ b) = (h2_lines a ++ h2_lines b)%list.
Proof.
  unfold h2_lines, NL. cbn [append].
  now rewrite lines_app_nl, filter_app.
Qed.

Lemma h2_lines_unlines (ls : list string) (rest : string) :
  h2_lines (unlines ls rest) = (flat_map h2_lines ls ++ h2_lines rest)%list.
Proof.
  induction ls as [|l ls IH]; [reflexivity|].
  cbn [unlines flat_map]. now rewrite h2_lines_app_nl, IH, app_assoc.
Qed.

Lemma h2_lines_no_nl (l : string) :
  PyStr.no_nl l = true -> h2_lines l = if is_h2 l then [l] else [].
Proof. intros H. unfold h2_lines. now rewrite (lines_no_nl l H). Qed.

Lemma is_h2_heading (s : string) : is_h2 ("## " ++ s) = true.
Proof. apply startswith_app. Qed.

Lemma markdown_header_unlines (search_query : string) (now : datetime) (rest : string) :
  markdown_header search_query now ++ rest
  = unlines (header_lines search_query now) rest.
Proof.
  unfold markdown_header, header_lines, unlines.
  repeat rewrite append_assoc. reflexivity.
Qed.

Lemma markdown_section_unlines (idx : nat) (paper : AnalyzedPaper) (rest : string) :
  markdown_section idx paper ++ rest = unlines (section_lines idx paper) rest.
Proof.
  unfold markdown_section, section_lines, unlines.
  repeat rewrite append_assoc. reflexivity.
Qed.

(** The loop only appends to what it is given. *)
Lemma markdown_loop_app (papers_data : list AnalyzedPaper) (idx : nat)
    (markdown_content : string) :
  markdown_loop idx papers_data markdown_content
  = markdown_content ++ markdown_loop idx papers_data "".
Proof.
  revert idx markdown_content.
  induction papers_data as [|paper rest IH]; intros idx markdown_content.
  - simpl. now rewrite append_empty_r.
  - cbn [markdown_loop]. rewrite IH, (IH _ ("" ++ _)).
    cbn [append]. now rewrite append_assoc.
Qed.

Lemma h2_lines_header (search_query : string) (now : datetime) (rest : string) :
  PyStr.no_nl search_query = true ->
  h2_lines (markdown_header search_query now ++ rest)
  = ("## Search Query: " ++ search_query) :: h2_lines rest.
Proof.
  intros Hq. rewrite markdown_header_unlines, h2_lines_unlines.
  cbn [header_lines flat_map].
  rewrite (h2_lines_no_nl ("## Search Query: " ++ search_query)),
          (h2_lines_no_nl ("*Generated on: " ++ strftime now ++ "*")).
  - reflexivity.
  - rewrite !no_nl_app, no_nl_strftime. reflexivity.
  - rewrite no_nl_app, Hq. reflexivity.
Qed.

Lemma h2_lines_section (idx : nat) (paper : AnalyzedPaper) (rest : string) :
  plain_paper paper ->
  h2_lines (markdown_section idx paper ++ rest)
  = ("## " ++ PyStr.str_nat idx ++ ". " ++ paper_title paper) :: h2_lines rest.
Proof.
  intros (Ht & Hl & Hb & Ha).
  rewrite markdown_section_unlines, h2_lines_unlines.
  cbn [section_lines flat_map]. rewrite Hb, Ha.
  rewrite (h2_lines_no_nl ("## " ++ _)), (h2_lines_no_nl ("**Link:** " ++ _)).
  - rewrite is_h2_heading. reflexivity.
  - rewrite no_nl_app, Hl. reflexivity.
  - rewrite !no_nl_app, no_nl_str_nat, Ht. reflexivity.
Qed.

Lemma h2_lines_sections (papers_data : list AnalyzedPaper) (idx : nat) :
  Forall plain_paper papers_data ->
  h2_lines (markdown_loop idx papers_data "") = paper_headings idx papers_data.
Proof.
  intros Hall. revert idx.
  induction Hall as [|paper rest Hp _ IH]; intros idx; [reflexivity|].
  cbn [markdown_loop paper_headings]. rewrite markdown_loop_app.
  cbn [append]. now rewrite h2_lines_section, IH.
Qed.

Lemma paper_headings_length (papers_data : list AnalyzedPaper) (idx : nat) :
  List.length (paper_headings idx papers_data) = List.length papers_data.
Proof.
  revert idx. induction papers_data as [|p ps IH]; intros idx; simpl; auto.
Qed.

Section Report.

Context {W : Type} (C : Collaborators W).

(** C4. [generate_markdown] is deterministic given its inputs: for the same
    papers and the same query, two invocations at which the clock gives the
    same timestamp return the same string. *)
Theorem generate_markdown_deterministic (papers_data : list AnalyzedPaper)
    (search_query : string) (w1 w2 : W) :
  strftime (datetime_now C w1) = strftime (datetime_now C w2) ->
  generate_markdown C papers_data search_query w1
  = generate_markdown C papers_data search_query w2.
Proof.
  intros Hts. unfold generate_markdown, markdown_header.
  now rewrite Hts.
Qed.

(** C6, as the code has it. When the query, the titles and the links have
    no line break, and no line of a body or of an analysis starts with "## ",
    the lines of the report that start with "## " are the "## Search Query:"
    line of the header followed by exactly one "## <idx>. <title>" line per
    paper, in input order, numbered from 1. *)
Theorem generate_markdown_sections (papers_data : list AnalyzedPaper)
    (search_query : string) (w : W) :
  PyStr.no_nl search_query = true ->
  Forall plain_paper papers_data ->
  h2_lines (generate_markdown C papers_data search_query w)
  = ("## Search Query: " ++ search_query) :: paper_headings 1 papers_data
  /\ List.length (paper_headings 1 papers_data) = List.length papers_data.
Proof.
  intros Hq Hall. split; [|apply paper_headings_length].
  unfold generate_markdown. rewrite markdown_loop_app.
  now rewrite h2_lines_header, h2_lines_sections.
Qed.

End Report.

(** ** The pipeline on scripted collaborators *)

Module Runs.

Import Scripted.

Example clean_text_sample :
  clean_text ("a" ++ NL ++ String "009"%char "b   c") = "a b c".
Proof. reflexivity. Qed.

Example clean_text_blank : clean_text "   " = "" /\ clean_text "" = "".
Proof. split; reflexivity. Qed.

(** Two URLs found, one extraction fails: one page, one analysed paper, one
    numbered section. *)
Example scenario_one_failure :
  fst (search_papers (run [url_ok; url_down]) "transformer attention" 2 None w0)
  = Return [page_ok]
  /\ events (snd (search_papers (run [url_ok; url_down]) "transformer attention" 2 None w0))
     = [Slept 2; Slept 2]
  /\ exists markdown,
       fst (main_search_and_analyze (run [url_ok; url_down])
              "transformer attention" 2 None w0)
       = Return (Some ([paper_plain], markdown))
       /\ h2_lines markdown
          = ["## Search Query: transformer attention";
             "## 1. Attention Is All You Need"].
Proof.
  split; [reflexivity|]. split; [reflexivity|].
  eexists. split; vm_compute; reflexivity.
Qed.

(** C1, on a page that cannot be downloaded. *)
Lemma get_page_content_never_raises_witness :
  get_page_content (run []) url_down w0
  = (Return (mkPage url_down
               "Error extracting content: Article `download()` failed with timed out"
               url_down),
     w0).
Proof.
  destruct (get_page_content_never_raises (run []) url_down w0)
    as (page & w' & Hrun & Herr).
  destruct (Herr (mkException "Article `download()` failed with timed out") w0 eq_refl)
    as [Hpage Hw].
  rewrite Hrun, Hpage, Hw. reflexivity.
Defined.

(** The "Content not accessible" page, on the one URL whose title can be
    empty after the fall-back. *)
Lemma get_page_content_inaccessible_witness :
  get_page_content (run []) "" w0
  = (Return (mkPage "" "Content not accessible - might be a PDF or protected content" ""),
     w0).
Proof.
  apply (get_page_content_inaccessible (run []) "" w0 (mkArticle "" "") w0
           (Raise (mkException "Resource punkt not found.")) w0);
    reflexivity.
Defined.

(** C5, on a page that parses. *)
Lemma get_page_content_success_witness :
  get_page_content (run []) url_ok w0 = (Return page_ok, w0)
  /\ String.length (body page_ok) <= 1500.
Proof.
  apply (get_page_content_success (run []) url_ok w0
           (mkArticle "Attention Is All You Need"
              ("The dominant  sequence transduction models" ++ NL ++ "are based on RNNs."))
           w0 (Raise (mkException "Resource punkt not found.")) w0);
    [reflexivity | reflexivity | left; discriminate].
Defined.

(** C5 as worded fails: on a text of "a", 1499 spaces and "b" the code cuts
    first and returns the body "a", where normalising first gives "a b". *)
Lemma get_page_content_cuts_before_cleaning :
  Article_parse (run []) url_long w0 = (Return (mkArticle "Long" long_text), w0)
  /\ fst (get_page_content (run []) url_long w0) = Return (mkPage "Long" "a" url_long)
  /\ spec_page_result "Long" long_text url_long = mkPage "Long" "a b" url_long
  /\ fst (get_page_content (run []) url_long w0)
     <> Return (spec_page_result "Long" long_text url_long).
Proof.
  assert (Hcode : fst (get_page_content (run []) url_long w0)
                  = Return (mkPage "Long" "a" url_long)) by (vm_compute; reflexivity).
  assert (Hspec : spec_page_result "Long" long_text url_long
                  = mkPage "Long" "a b" url_long) by (vm_compute; reflexivity).
  split; [reflexivity|]. split; [exact Hcode|]. split; [exact Hspec|].
  rewrite Hcode, Hspec. discriminate.
Qed.

(** C8, on a search that finds two URLs for a limit of five, with an empty
    list of domains. *)
Lemma search_papers_bound_and_default_domains_witness :
  (exists papers w',
     search_papers (run [url_ok; url_down]) "transformer attention" 5 (Some []) w0
     = (Return papers, w')
     /\ (Z.of_nat (List.length papers) <= 5)%Z)
  /\ effective_domains (Some []) = ["arxiv.org"; "scholar.google.com"]
  /\ academic_query "transformer attention" (Some [])
     = "transformer attention (research OR paper OR study OR journal) (site:arxiv.org OR site:scholar.google.com)".
Proof.
  destruct (search_papers_bound_and_default_domains (run [url_ok; url_down])
              "transformer attention" 5 (Some []) w0) as [Hbound Hdom].
  split.
  - apply Hbound. vm_compute. discriminate.
  - apply Hdom. right. reflexivity.
Defined.

(** C2, on a search that finds a page that parses, one that cannot be
    downloaded and the empty URL: the second is left out, the
    "Content not accessible" page of the third is returned. *)
Lemma search_papers_filter_witness :
  exists papers w',
    search_papers (run [url_ok; url_down; ""]) "transformer attention" 5 None w0
    = (Return papers, w')
    /\ In (mkPage "" "Content not accessible - might be a PDF or protected content" "")
          papers
    /\ forall p, In p papers ->
         PyStr.startswith (body p) "Error extracting content: " = false.
Proof.
  destruct (search_papers_filter (run [url_ok; url_down; ""])
              "transformer attention" 5 None w0)
    as (papers & w' & Hrun & _ & Hnoerr & Hkept & _).
  exists papers, w'. split; [exact Hrun|]. split; [|exact Hnoerr].
  apply Hkept; [reflexivity | | reflexivity].
  vm_compute. right. right. left. reflexivity.
Defined.

(** C2 as worded fails: a page that parses with an empty text, and one whose
    text starts with "Error extracting content" without the colon, do not
    carry the "Error extracting content: " prefix, and both are left out. *)
Lemma search_papers_drops_more_than_errors :
  fst (get_page_content (run [url_blank; url_report]) url_blank w0)
  = Return (mkPage url_blank "" url_blank)
  /\ PyStr.startswith "" "Error extracting content: " = false
  /\ fst (get_page_content (run [url_blank; url_report]) url_report w0)
     = Return (mkPage "Report"
                 "Error extracting content from scans is a common problem."
                 url_report)
  /\ PyStr.startswith "Error extracting content from scans is a common problem."
       "Error extracting content: " = false
  /\ fst (search_papers (run [url_blank; url_report]) "transformer attention" 5 None w0)
     = Return [].
Proof. repeat split; vm_compute; reflexivity. Qed.

(** C10, on a page that parses with an empty title and an empty text. *)
Lemma search_papers_bodies_not_empty_witness :
  exists papers w',
    search_papers (run [url_ok; url_blank]) "transformer attention" 5 None w0
    = (Return papers, w')
    /\ Forall (fun p => body p <> "") papers
    /\ get_page_content (run [url_ok; url_blank]) url_blank w0
       = (Return (mkPage url_blank "" url_blank), w0)
    /\ ~ In (mkPage url_blank "" url_blank) papers.
Proof.
  destruct (search_papers_bodies_not_empty (run [url_ok; url_blank])
              "transformer attention" 5 None w0)
    as (papers & w' & Hrun & Hall & Hblank).
  exists papers, w'. split; [exact Hrun|]. split; [exact Hall|].
  destruct (Hblank url_blank w0 (mkArticle "" "") w0
              (Raise (mkException "Resource punkt not found.")) w0
              eq_refl eq_refl eq_refl eq_refl)
    as (page & Hpage & _ & _ & _ & Hout); [discriminate|].
  assert (Hcalc : get_page_content (run [url_ok; url_blank]) url_blank w0
                  = (Return (mkPage url_blank "" url_blank), w0))
    by (vm_compute; reflexivity).
  split; [exact Hcalc|].
  rewrite Hcalc in Hpage. injection Hpage as <-. exact Hout.
Defined.

(** C9, with the model backend down. *)
Lemma analyze_paper_never_raises_witness :
  analyze_paper (run_model_down []) page_ok w0
  = (Return "Analysis error: connection refused",
     mkWorld noon [Printed "connection refused"]).
Proof.
  destruct (analyze_paper_never_raises (run_model_down []) page_ok w0)
    as (text & w' & Hrun & Herr & _).
  destruct (Herr (mkException "connection refused") w0 eq_refl) as [-> ->].
  exact Hrun.
Defined.

(** C3, on a search that returns one page. *)
Lemma main_one_analysis_per_page_witness :
  exists papers_data markdown w2,
    main_search_and_analyze (run [url_ok; url_down]) "transformer attention" 5 None w0
    = (Return (Some (papers_data, markdown)), w2)
    /\ List.length papers_data = List.length [page_ok]
    /\ map paper_link papers_data = map link [page_ok]
    /\ map paper_title papers_data = map title [page_ok]
    /\ map paper_body papers_data = map body [page_ok]
    /\ markdown = generate_markdown (run [url_ok; url_down]) papers_data
                    "transformer attention" w2.
Proof.
  apply (main_one_analysis_per_page (run [url_ok; url_down])
           "transformer attention" 5 None w0 (mkWorld noon [Slept 2; Slept 2])
           [page_ok]);
    [discriminate | vm_compute; reflexivity | discriminate].
Defined.

(** C4, on two worlds whose clocks differ by microseconds. *)
Lemma generate_markdown_deterministic_witness :
  generate_markdown (run []) [paper_plain] "transformer attention" w0
  = generate_markdown (run []) [paper_plain] "transformer attention" w0_later.
Proof.
  apply generate_markdown_deterministic. reflexivity.
Defined.

(** C6, on two plain papers. *)
Lemma generate_markdown_sections_witness :
  h2_lines (generate_markdown (run []) [paper_plain; paper_plain]
              "transformer attention" w0)
  = ["## Search Query: transformer attention";
     "## 1. Attention Is All You Need";
     "## 2. Attention Is All You Need"]
  /\ List.length (paper_headings 1 [paper_plain; paper_plain]) = 2.
Proof.
  apply (generate_markdown_sections (run []) [paper_plain; paper_plain]
           "transformer attention" w0).
  - reflexivity.
  - repeat constructor.
Defined.

(** C6 as worded fails: for one paper whose analysis answers the prompt
    under the headings "## 1. Key findings" and "## 2. Main methodology", the
    report has three "## " sections after the header's own. *)
Lemma generate_markdown_extra_heading :
  h2_lines (generate_markdown (run []) [paper_with_heading] "transformer attention" w0)
  = ["## Search Query: transformer attention";
     "## 1. Attention Is All You Need";
     "## 1. Key findings";
     "## 2. Main methodology"]
  /\ List.length [paper_with_heading] = 1.
Proof. split; vm_compute; reflexivity. Qed.

End Runs.

(** * Further properties *)

(** ** [clean_text] *)

Lemma no_space_app (a b : string) : no_space (a ++ b) = no_space a && no_space b.
Proof.
  induction a as [|c a IH]; simpl; [reflexivity|].
  now rewrite IH, andb_assoc.
Qed.

Lemma drop_spaces_app (a b : string) :
  drop_spaces (a ++ b) = drop_spaces a ++ drop_spaces b.
Proof.
  induction a as [|c a IH]; simpl; [reflexivity|].
  destruct (PyStr.isspace c); simpl; now rewrite IH.
Qed.

Lemma clean_text_join (s : string) :
  clean_text s = PyStr.join " " (PyStr.split s).
Proof. destruct s; reflexivity. Qed.

(** The runs [split] returns are words. *)
Lemma split_from_words (s cur : string) :
  no_space cur = true ->
  Forall (fun w => is_word w = true) (PyStr.split_from cur s).
Proof.
  revert cur. induction s as [|c s IH]; intros cur Hcur.
  - simpl. destruct (PyStr.truthy cur) eqn:E; constructor; [|constructor].
    unfold is_word. now rewrite E, Hcur.
  - cbn [PyStr.split_from]. destruct (PyStr.isspace c) eqn:Ec.
    + destruct (PyStr.truthy cur) eqn:E; [constructor|]; try now apply IH.
      unfold is_word. now rewrite E, Hcur.
    + apply IH. rewrite no_space_app, Hcur. simpl. now rewrite Ec.
Qed.

(** Reading a word moves it into the run being read. *)
Lemma split_from_word (w cur rest : string) :
  no_space w = true ->
  PyStr.split_from cur (w ++ rest) = PyStr.split_from (cur ++ w) rest.
Proof.
  revert cur. induction w as [|c w IH]; intros cur Hw.
  - now rewrite append_empty_r.
  - simpl in Hw. apply andb_prop in Hw as [Hc Hw].
    apply negb_true_iff in Hc.
    change (String c w ++ rest) with (String c (w ++ rest)).
    cbn [PyStr.split_from]. rewrite Hc, (IH _ Hw), append_assoc. reflexivity.
Qed.

(** Splitting what was joined gives the words back. *)
Lemma split_join (ws : list string) :
  Forall (fun w => is_word w = true) ws ->
  PyStr.split (PyStr.join " " ws) = ws.
Proof.
  unfold PyStr.split.
  induction 1 as [|w ws Hw Hws IH]; [reflexivity|].
  unfold is_word in Hw. apply andb_prop in Hw as [Hne Hns].
  destruct ws as [|w' ws].
  - cbn [PyStr.join]. rewrite <- (append_empty_r w) at 1.
    rewrite (split_from_word w "" "" Hns). simpl. now rewrite Hne.
  - change (PyStr.join " " (w :: w' :: ws))
      with (w ++ " " ++ PyStr.join " " (w' :: ws)).
    rewrite (split_from_word w "" _ Hns).
    cbn [append PyStr.split_from].
    change (PyStr.isspace " ") with true. cbv iota.
    now rewrite Hne, IH.
Qed.

Lemma drop_spaces_join_cons (p : string) (ps : list string) :
  drop_spaces (PyStr.join " " (p :: ps))
  = drop_spaces p ++ drop_spaces (PyStr.join " " ps).
Proof.
  destruct ps as [|p' ps].
  - simpl. now rewrite append_empty_r.
  - change (PyStr.join " " (p :: p' :: ps))
      with (p ++ " " ++ PyStr.join " " (p' :: ps)).
    now rewrite !drop_spaces_app.
Qed.

Lemma drop_spaces_split_from (s cur : string) :
  drop_spaces (PyStr.join " " (PyStr.split_from cur s))
  = drop_spaces cur ++ drop_spaces s.
Proof.
  revert cur. induction s as [|c s IH]; intros cur.
  - simpl. destruct cur; simpl; [reflexivity | now rewrite !append_empty_r].
  - cbn [PyStr.split_from drop_spaces]. destruct (PyStr.isspace c) eqn:Ec.
    + destruct cur as [|d cur].
      * cbn [PyStr.truthy]. rewrite IH. reflexivity.
      * cbn [PyStr.truthy]. rewrite drop_spaces_join_cons, IH. reflexivity.
    + rewrite IH, drop_spaces_app. simpl. rewrite Ec.
      now rewrite append_assoc.
Qed.

Lemma drop_spaces_empty_iff (s : string) : drop_spaces s = "" <-> blank s = true.
Proof.
  induction s as [|c s IH]; simpl; [tauto|].
  destruct (PyStr.isspace c); simpl; [exact IH|].
  split; discriminate.
Qed.

Lemma split_from_blank (s : string) :
  blank s = true -> PyStr.split_from "" s = [].
Proof.
  induction s as [|c s IH]; simpl; [reflexivity|].
  intros H. apply andb_prop in H as [Hc Hs]. now rewrite Hc, IH.
Qed.

Lemma not_space_not_blank_char (c : ascii) :
  PyStr.isspace c = false -> Ascii.eqb c " " = false.
Proof.
  intros H. destruct (Ascii.eqb c " ") eqn:E; [|reflexivity].
  apply Ascii.eqb_eq in E. subst c. discriminate.
Qed.

Lemma spaced_from_no_space (w rest : string) :
  no_space w = true ->
  spaced_from false (w ++ rest) = spaced_from false rest.
Proof.
  induction w as [|c w IH]; intros Hw; [reflexivity|].
  simpl in Hw. apply andb_prop in Hw as [Hc Hw].
  apply negb_true_iff in Hc.
  change (String c w ++ rest) with (String c (w ++ rest)).
  cbn [spaced_from]. rewrite (not_space_not_blank_char c Hc), Hc. simpl.
  now apply IH.
Qed.

Lemma spaced_from_word (w rest : string) (after_space : bool) :
  is_word w = true ->
  spaced_from after_space (w ++ rest) = spaced_from false rest.
Proof.
  unfold is_word. destruct w as [|c w]; [discriminate|]. simpl.
  intros Hw. apply andb_prop in Hw as [Hc Hw]. apply negb_true_iff in Hc.
  rewrite (not_space_not_blank_char c Hc), Hc. simpl.
  now apply spaced_from_no_space.
Qed.

Lemma spaced_from_join (ws : list string) :
  ws <> [] ->
  Forall (fun w => is_word w = true) ws ->
  spaced_from true (PyStr.join " " ws) = true.
Proof.
  intros Hne Hall. induction Hall as [|w ws Hw Hws IH]; [congruence|].
  destruct ws as [|w' ws].
  - cbn [PyStr.join]. rewrite <- (append_empty_r w).
    now rewrite (spaced_from_word w "" true Hw).
  - change (PyStr.join " " (w :: w' :: ws))
      with (w ++ " " ++ PyStr.join " " (w' :: ws)).
    rewrite (spaced_from_word w _ true Hw). cbn [append spaced_from].
    change (Ascii.eqb " " " ") with true. cbv iota. simpl negb.
    apply IH. discriminate.
Qed.

Lemma single_spaced_join (ws : list string) :
  Forall (fun w => is_word w = true) ws ->
  single_spaced (PyStr.join " " ws) = true.
Proof.
  intros Hall. unfold single_spaced. destruct ws as [|w ws]; [reflexivity|].
  rewrite spaced_from_join; [apply orb_true_r | discriminate | exact Hall].
Qed.

Lemma single_spaced_clean_text (s : string) : single_spaced (clean_text s) = true.
Proof.
  rewrite clean_text_join. apply single_spaced_join.
  apply (split_from_words s ""). reflexivity.
Qed.

(** X1. Normalising keeps the words: [clean_text(s).split()] is
    [s.split()]. *)
Theorem clean_text_keeps_words (s : string) :
  PyStr.split (clean_text s) = PyStr.split s.
Proof.
  rewrite clean_text_join. apply split_join.
  apply (split_from_words s ""). reflexivity.
Qed.

(** X2. [clean_text] is idempotent. *)
Theorem clean_text_idempotent (s : string) :
  clean_text (clean_text s) = clean_text s.
Proof.
  rewrite (clean_text_join (clean_text s)), (clean_text_join s).
  rewrite split_join; [reflexivity|].
  apply (split_from_words s ""). reflexivity.
Qed.

Lemma truthy_app_char (cur : string) (c : ascii) :
  PyStr.truthy (cur ++ String c "") = true.
Proof. destruct cur; reflexivity. Qed.

(** On a single-spaced rest, [split] and [join] give the text back. *)
Lemma join_split_from_spaced (s cur : string) :
  spaced_from (negb (PyStr.truthy cur)) s = true ->
  PyStr.join " " (PyStr.split_from cur s) = cur ++ s.
Proof.
  revert cur. induction s as [|c s IH]; intros cur H.
  - simpl in *. apply negb_true_iff, negb_false_iff in H. rewrite H.
    simpl. now rewrite append_empty_r.
  - cbn [spaced_from] in H. cbn [PyStr.split_from].
    destruct (Ascii.eqb c " ") eqn:Ec.
    + apply Ascii.eqb_eq in Ec. subst c.
      apply andb_prop in H as [Hcur Hs].
      apply negb_true_iff, negb_false_iff in Hcur.
      change (PyStr.isspace " ") with true. cbv iota. rewrite Hcur.
      pose proof (IH "" Hs) as Hrest. simpl in Hrest.
      destruct (PyStr.split_from "" s) as [|w ws] eqn:Ews.
      * simpl in Hrest. subst s. discriminate.
      * change (PyStr.join " " (cur :: w :: ws))
          with (cur ++ " " ++ PyStr.join " " (w :: ws)).
        now rewrite Hrest.
    + apply andb_prop in H as [Hc Hs]. apply negb_true_iff in Hc.
      rewrite Hc. rewrite IH.
      * now rewrite append_assoc.
      * now rewrite truthy_app_char.
Qed.

(** X3. The result of [clean_text] is in normal form: its only whitespace
    characters are single spaces between two words, with none at the start
    and none at the end. And the texts [clean_text] leaves unchanged are
    exactly those in normal form. *)
Theorem clean_text_normal_form (s : string) :
  single_spaced (clean_text s) = true
  /\ (clean_text s = s <-> single_spaced s = true).
Proof.
  split; [apply single_spaced_clean_text|]. split.
  - intros <-. apply single_spaced_clean_text.
  - unfold single_spaced. intros H. rewrite clean_text_join.
    destruct s as [|c s]; [reflexivity|].
    cbn [PyStr.truthy negb orb] in H.
    apply (join_split_from_spaced (String c s) ""). exact H.
Qed.

(** X4. [clean_text] only touches whitespace: without their whitespace
    characters, the result and the argument are the same string. *)
Theorem clean_text_keeps_characters (s : string) :
  drop_spaces (clean_text s) = drop_spaces s.
Proof.
  rewrite clean_text_join. apply (drop_spaces_split_from s "").
Qed.

(** X5. [clean_text] returns [""] exactly for the texts made of whitespace
    only, the empty text among them. *)
Theorem clean_text_empty_iff (s : string) :
  clean_text s = "" <-> blank s = true.
Proof.
  split.
  - intros H. apply drop_spaces_empty_iff.
    pose proof (drop_spaces_split_from s "") as Hd.
    fold (PyStr.split s) in Hd. rewrite <- clean_text_join, H in Hd.
    simpl in Hd. congruence.
  - intros H. rewrite clean_text_join. unfold PyStr.split.
    now rewrite split_from_blank.
Qed.

(** ** The page extractor, further *)

Section ExtractorFurther.

Context {W : Type} (C : Collaborators W).

(** Whatever happens, the page returned carries the URL it was asked for. *)
Lemma get_page_content_link (url : string) (w : W) :
  link (match fst (get_page_content C url w) with
        | Return page => page
        | Raise _ => mkPage "" "" url
        end) = url.
Proof.
  rewrite get_page_content_unfold.
  destruct (Article_parse C url w) as [[a|e] w1]; [|reflexivity].
  destruct (Article_nlp C a w1) as [o w2]. cbv zeta. cbn [fst].
  destruct (negb _ && negb _); reflexivity.
Qed.

(** The body written for a failed extraction never passes the test of the
    search loop. *)
Lemma keeps_error_page (url : string) (e : Exception) :
  keeps (mkPage url ("Error extracting content: " ++ str_of e) url) = false.
Proof.
  apply keeps_error_prefixed. cbn [body]. apply startswith_app.
Qed.

(** X6. A page that was fetched and parsed comes back normalised, whatever
    [nlp()] did: its title and its body are single-spaced, its body has at
    most 1500 characters, and its link is the URL. *)
Theorem get_page_content_parsed_normalised (url : string) (w : W)
    (a : Article) (w1 : W) :
  Article_parse C url w = (Return a, w1) ->
  exists page w2,
    get_page_content C url w = (Return page, w2)
    /\ single_spaced (title page) = true
    /\ single_spaced (body page) = true
    /\ String.length (body page) <= 1500
    /\ link page = url.
Proof.
  intros Ha. rewrite get_page_content_unfold, Ha.
  destruct (Article_nlp C a w1) as [o w2]. cbv zeta.
  destruct (PyStr.truthy (if PyStr.truthy (article_title a)
                          then article_title a else url)) eqn:Et.
  - cbn [negb andb]. do 2 eexists. split; [reflexivity|]. cbn [title body link].
    repeat split; try apply single_spaced_clean_text.
    etransitivity; [apply length_clean_text | apply length_take].
  - destruct (PyStr.truthy (if PyStr.truthy (summary_of o)
                            then summary_of o else article_text a)) eqn:Ec.
    + cbn [negb andb]. do 2 eexists. split; [reflexivity|]. cbn [title body link].
      repeat split; try apply single_spaced_clean_text.
      etransitivity; [apply length_clean_text | apply length_take].
    + cbn [negb andb]. do 2 eexists. split; [reflexivity|]. cbn [title body link].
      destruct (PyStr.truthy (article_title a)) eqn:E; cbv iota in Et;
        [congruence|].
      apply truthy_false_iff in Et. subst url.
      repeat split; try reflexivity. vm_compute. lia.
Qed.

(** X7. For a URL that is not empty, the "Content not accessible" branch is
    never taken: a page that was fetched and parsed always gets the cleaned
    title (the URL if the parsed title is empty) and the cleaned first 1500
    characters of its content, be they empty. *)
Theorem get_page_content_nonempty_url (url : string) (w : W)
    (a : Article) (w1 : W) (o : outcome string) (w2 : W) :
  url <> "" ->
  Article_parse C url w = (Return a, w1) ->
  Article_nlp C a w1 = (o, w2) ->
  get_page_content C url w =
  (Return (mkPage
             (clean_text (if PyStr.truthy (article_title a)
                          then article_title a else url))
             (clean_text (PyStr.take 1500
                            (if PyStr.truthy (summary_of o) then summary_of o
                             else article_text a)))
             url),
   w2).
Proof.
  intros Hu Ha Ho. rewrite get_page_content_unfold, Ha, Ho. cbv zeta.
  assert (PyStr.truthy (if PyStr.truthy (article_title a)
                        then article_title a else url) = true) as ->.
  { destruct (PyStr.truthy (article_title a)) eqn:E; [exact E|].
    now apply truthy_true_iff. }
  reflexivity.
Qed.

(** C7, which the code breaks. A page at a URL that is not empty, fetched and
    parsed with an empty title, an empty summary and an empty text, does not
    come back as the "Content not accessible - might be a PDF or protected
    content" page: the title has already fallen back to the URL when
    [not title and not content] is tested, so the page returned has the
    cleaned URL as title and the empty string as body. *)
Theorem get_page_content_empty_page (url : string) (w : W)
    (a : Article) (w1 : W) (o : outcome string) (w2 : W) :
  url <> "" ->
  Article_parse C url w = (Return a, w1) ->
  Article_nlp C a w1 = (o, w2) ->
  article_title a = "" ->
  summary_of o = "" ->
  article_text a = "" ->
  get_page_content C url w = (Return (mkPage (clean_text url) "" url), w2)
  /\ body (mkPage (clean_text url) "" url)
     <> "Content not accessible - might be a PDF or protected content"
  /\ get_page_content C url w
     <> (Return (mkPage url
                   "Content not accessible - might be a PDF or protected content"
                   url),
         w2).
Proof.
  intros Hu Ha Ho Ht Hs Hx.
  assert (Hrun : get_page_content C url w
                 = (Return (mkPage (clean_text url) "" url), w2)).
  { rewrite get_page_content_unfold, Ha, Ho. cbv zeta. rewrite Ht, Hs, Hx.
    cbn [PyStr.truthy]. apply truthy_true_iff in Hu. rewrite Hu. reflexivity. }
  split; [exact Hrun|]. split; [discriminate|].
  rewrite Hrun. intros H. discriminate H.
Qed.

End ExtractorFurther.

(** ** The search orchestrator, further *)

Lemma subsequence_nil_l {A} (l : list A) : subsequence [] l.
Proof. induction l; constructor; assumption. Qed.

Lemma subsequence_map_filter {A B} (f : A -> B) (p : A -> bool) (l : list A) :
  subsequence (map f (filter p l)) (map f l).
Proof.
  induction l as [|x l IH]; simpl; [constructor|].
  destruct (p x); simpl; constructor; exact IH.
Qed.

Lemma subsequence_length {A} (l1 l2 : list A) :
  subsequence l1 l2 -> List.length l1 <= List.length l2.
Proof. induction 1; simpl; lia. Qed.

Section OrchestratorFurther.

Context {W : Type} (C : Collaborators W).

(** The pages extracted carry the URLs they were extracted from, in
    order. *)
Lemma extract_all_links (urls : list string) (w : W) :
  map link (fst (extract_all C urls w)) = urls.
Proof.
  revert w. induction urls as [|url rest IH]; intros w; [reflexivity|].
  cbn [extract_all].
  pose proof (get_page_content_link C url w) as Hlink.
  destruct (get_page_content_returns C url w) as (page & w1 & Hrun).
  rewrite Hrun in *. cbn [fst] in Hlink.
  specialize (IH (time_sleep C 2 w1)).
  destruct (extract_all C rest (time_sleep C 2 w1)) as [pages w2].
  cbn [fst map] in *. now rewrite Hlink, IH.
Qed.

(** X8. The links of the pages [search_papers] returns are, in order, a
    subsequence of the URLs the search yielded: every page comes from one of
    those URLs, no URL gives two pages, and the order of the search is
    kept. *)
Theorem search_papers_links_subsequence (query : string) (max_results : Z)
    (search_domains : option (list string)) (w : W) :
  exists papers w',
    search_papers C query max_results search_domains w = (Return papers, w')
    /\ subsequence (map link papers)
         (yielded (fst (search C (academic_query query search_domains)
                          max_results w))).
Proof.
  pose proof (search_papers_unfold C query max_results search_domains w) as H.
  cbv zeta in H.
  set (g := fst (search C (academic_query query search_domains) max_results w)) in *.
  set (w1 := snd (search C (academic_query query search_domains) max_results w)) in *.
  destruct (failure g) as [e|].
  - do 2 eexists. split; [exact H|]. apply subsequence_nil_l.
  - do 2 eexists. split; [exact H|].
    rewrite <- (extract_all_links (yielded g) w1) at 2.
    apply subsequence_map_filter.
Qed.

(** X9. When the iteration over the search results ends by an exception,
    even after it yielded URLs, [search_papers] returns the empty list: the
    pages extracted so far are dropped, and the message "Search error: "
    followed by the exception's text goes to [st.error]. *)
Theorem search_papers_search_fails (query : string) (max_results : Z)
    (search_domains : option (list string)) (w : W) (e : Exception) :
  failure (fst (search C (academic_query query search_domains) max_results w))
  = Some e ->
  search_papers C query max_results search_domains w =
  (Return [],
   st_error C ("Search error: " ++ str_of e)
     (snd (extract_all C
             (yielded (fst (search C (academic_query query search_domains)
                              max_results w)))
             (snd (search C (academic_query query search_domains)
                     max_results w))))).
Proof.
  intros Hfail.
  pose proof (search_papers_unfold C query max_results search_domains w) as H.
  cbv zeta in H. now rewrite Hfail in H.
Qed.

(** When every fetch raises, no extracted page passes the test. *)
Lemma extract_all_none_kept (urls : list string) (w : W) :
  (forall url w0, exists e w1, Article_parse C url w0 = (Raise e, w1)) ->
  filter keeps (fst (extract_all C urls w)) = [].
Proof.
  intros Hdown. revert w.
  induction urls as [|url rest IH]; intros w; [reflexivity|].
  cbn [extract_all]. rewrite get_page_content_unfold.
  destruct (Hdown url w) as (e & w1 & ->).
  specialize (IH (time_sleep C 2 w1)).
  destruct (extract_all C rest (time_sleep C 2 w1)) as [pages w2].
  cbn [fst filter] in *. now rewrite keeps_error_page.
Qed.

(** X10. When every page fails to download or parse, [search_papers] returns
    the empty list, and [main], given a query, shows the "No papers found"
    warning and stops there: nothing is analysed and no report is
    generated. *)
Theorem main_no_page_extracted (search_query : string) (max_results : Z)
    (search_domains : option (list string)) (w : W) :
  (forall url w0, exists e w1, Article_parse C url w0 = (Raise e, w1)) ->
  search_query <> "" ->
  exists w1,
    search_papers C search_query max_results search_domains w = (Return [], w1)
    /\ main_search_and_analyze C search_query max_results search_domains w
       = (Return None, st_warning_no_papers C w1).
Proof.
  intros Hdown Hq.
  pose proof (search_papers_unfold C search_query max_results search_domains w) as H.
  cbv zeta in H. rewrite (extract_all_none_kept _ _ Hdown) in H.
  assert (exists w1, search_papers C search_query max_results search_domains w
                     = (Return [], w1)) as [w1 Hs].
  { rewrite H. destruct (failure _); eauto. }
  exists w1. split; [exact Hs|].
  unfold main_search_and_analyze. apply truthy_true_iff in Hq. rewrite Hq.
  unfold bind at 1. rewrite Hs. reflexivity.
Qed.

End OrchestratorFurther.

(** ** The analysis loop and [main], further *)

Section MainFurther.

Context {W : Type} (C : Collaborators W).

(** With the model backend down, every record the loop appends carries an
    error text as its analysis. *)
Lemma analyze_loop_model_down (papers : list PageResult) (total i : nat)
    (papers_data : list AnalyzedPaper) (w : W) :
  (forall prompt w0, exists e w1, chat C prompt w0 = (Raise e, w1)) ->
  exists added w',
    analyze_loop C total i papers papers_data w
    = (Return (papers_data ++ added)%list, w')
    /\ List.length added = List.length papers
    /\ Forall (fun a => PyStr.startswith (analysis a) "Analysis error: " = true)
         added.
Proof.
  intros Hdown. revert i papers_data w.
  induction papers as [|paper rest IH]; intros i papers_data w.
  - exists [], w. simpl. unfold ret. rewrite app_nil_r. auto.
  - cbn [analyze_loop]. unfold bind at 1. unfold effect at 1. unfold bind at 1.
    unfold analyze_paper at 1. unfold try_except at 1.
    destruct (Hdown (analysis_prompt paper) (st_progress C (i + 1) total w))
      as (e & w1 & ->).
    unfold bind at 1. unfold effect at 1. unfold ret at 1.
    destruct (IH (S i)
                (papers_data
                 ++ [mkAnalyzed (title paper) (link paper) (body paper)
                       ("Analysis error: " ++ str_of e)])%list
                (print C (str_of e) w1))
      as (added & w' & -> & Hlen & Hall).
    eexists (_ :: added), w'. rewrite <- app_assoc. split; [reflexivity|].
    split; [simpl; now rewrite Hlen|].
    constructor; [|exact Hall]. cbn [analysis]. apply startswith_app.
Qed.

(** X11. When the model backend fails on every call, [main] still goes
    through: for a non-empty list of pages it produces one record per page,
    each with an analysis that starts with "Analysis error: ", and generates
    the report from them. *)
Theorem main_model_down (search_query : string) (max_results : Z)
    (search_domains : option (list string)) (w w1 : W)
    (papers : list PageResult) :
  (forall prompt w0, exists e w', chat C prompt w0 = (Raise e, w')) ->
  search_query <> "" ->
  search_papers C search_query max_results search_domains w = (Return papers, w1) ->
  papers <> [] ->
  exists papers_data w2,
    main_search_and_analyze C search_query max_results search_domains w
    = (Return (Some (papers_data,
                     generate_markdown C papers_data search_query w2)), w2)
    /\ List.length papers_data = List.length papers
    /\ Forall (fun a => PyStr.startswith (analysis a) "Analysis error: " = true)
         papers_data.
Proof.
  intros Hdown Hq Hs Hne.
  unfold main_search_and_analyze.
  apply truthy_true_iff in Hq. rewrite Hq.
  unfold bind at 1. rewrite Hs.
  destruct papers as [|paper rest]; [congruence|].
  destruct (analyze_loop_model_down (paper :: rest) (List.length (paper :: rest))
              0 [] w1 Hdown)
    as (added & w' & Hloop & Hlen & Hall).
  unfold bind at 1. rewrite Hloop. unfold bind, effect.
  exists added. eexists. split; [reflexivity|]. split; assumption.
Qed.

(** X12. [main] never raises, and it generates a report exactly when the
    query is not empty and the search returned at least one page. *)
Theorem main_never_raises (search_query : string) (max_results : Z)
    (search_domains : option (list string)) (w : W) :
  exists result w',
    main_search_and_analyze C search_query max_results search_domains w
    = (Return result, w')
    /\ (result = None
        <-> search_query = ""
            \/ fst (search_papers C search_query max_results search_domains w)
               = Return []).
Proof.
  unfold main_search_and_analyze.
  destruct (PyStr.truthy search_query) eqn:Hq.
  - apply truthy_true_iff in Hq.
    destruct (search_papers_returns C search_query max_results search_domains w)
      as (papers & w1 & Hs).
    unfold bind at 1. rewrite Hs. cbn [fst].
    destruct papers as [|paper rest].
    + do 2 eexists. split; [reflexivity|]. split; auto.
    + destruct (analyze_loop_appends C (paper :: rest)
                  (List.length (paper :: rest)) 0 [] w1)
        as (added & w' & Hloop & _).
      unfold bind at 1. rewrite Hloop. unfold bind, effect.
      do 2 eexists. split; [reflexivity|]. split; [discriminate|].
      intros [H|H]; [contradiction | discriminate].
  - apply truthy_false_iff in Hq.
    do 2 eexists. split; [reflexivity|]. split; auto.
Qed.

End MainFurther.

(** ** The report generator, further *)

Lemma append_cancel_l (a b c : string) : a ++ b = a ++ c -> b = c.
Proof.
  induction a as [|x a IH]; simpl; intros H; [exact H|].
  injection H as H. now apply IH.
Qed.

Lemma append_cancel_r (a b c : string) : a ++ c = b ++ c -> a = b.
Proof.
  revert b. induction a as [|x a IH]; intros [|y b] H.
  - reflexivity.
  - exfalso. apply (f_equal String.length) in H.
    simpl in H. rewrite length_app in H. lia.
  - exfalso. apply (f_equal String.length) in H.
    simpl in H. rewrite length_app in H. lia.
  - simpl in H. injection H as -> H. f_equal. now apply IH.
Qed.

Lemma markdown_loop_snoc (papers_data : list AnalyzedPaper) (paper : AnalyzedPaper)
    (idx : nat) (markdown_content : string) :
  markdown_loop idx (papers_data ++ [paper]) markdown_content
  = markdown_loop idx papers_data markdown_content
    ++ markdown_section (idx + List.length papers_data) paper.
Proof.
  revert idx markdown_content.
  induction papers_data as [|p ps IH]; intros idx markdown_content.
  - simpl. now rewrite Nat.add_0_r.
  - cbn [app markdown_loop List.length]. rewrite IH.
    now rewrite Nat.add_succ_comm.
Qed.

Section ReportFurther.

Context {W : Type} (C : Collaborators W).

(** X13. The report is built section after section: with no paper it is the
    header alone, and one more paper at the end of the list adds its section
    at the end of the report, numbered with its position, and changes nothing
    before. *)
Theorem generate_markdown_snoc (papers_data : list AnalyzedPaper)
    (paper : AnalyzedPaper) (search_query : string) (w : W) :
  generate_markdown C [] search_query w
  = markdown_header search_query (datetime_now C w)
  /\ generate_markdown C (papers_data ++ [paper]) search_query w
     = generate_markdown C papers_data search_query w
       ++ markdown_section (S (List.length papers_data)) paper.
Proof.
  split; [reflexivity|].
  unfold generate_markdown. now rewrite markdown_loop_snoc.
Qed.

(** X14. The report shows when it was generated: for the same papers and the
    same query, two reports are equal only if their timestamps are. *)
Theorem generate_markdown_timestamp (papers_data : list AnalyzedPaper)
    (search_query : string) (w1 w2 : W) :
  generate_markdown C papers_data search_query w1
  = generate_markdown C papers_data search_query w2 ->
  strftime (datetime_now C w1) = strftime (datetime_now C w2).
Proof.
  unfold generate_markdown. rewrite !(markdown_loop_app papers_data 1 (markdown_header _ _)).
  unfold markdown_header. intros H.
  repeat rewrite append_assoc in H.
  do 6 apply append_cancel_l in H.
  now apply append_cancel_r in H.
Qed.

End ReportFurther.

(** ** The name of the downloaded file *)

Lemma all_chars_app (f : ascii -> bool) (a b : string) :
  all_chars f (a ++ b) = all_chars f a && all_chars f b.
Proof.
  induction a as [|c a IH]; simpl; [reflexivity|].
  now rewrite IH, andb_assoc.
Qed.

Lemma file_name_digits (d : Decimal.uint) :
  all_chars file_name_char (NilEmpty.string_of_uint d) = true.
Proof. induction d; simpl; auto. Qed.

Lemma file_name_str_nat (n : nat) : all_chars file_name_char (PyStr.str_nat n) = true.
Proof.
  unfold PyStr.str_nat, NilZero.string_of_uint.
  destruct (Nat.to_uint n); try reflexivity; apply file_name_digits.
Qed.

Lemma file_name_zeros (n : nat) :
  all_chars file_name_char (PyStr.repeat_str "0" n) = true.
Proof. induction n; simpl; auto. Qed.

Lemma file_name_zfill (width n : nat) : all_chars file_name_char (zfill width n) = true.
Proof.
  unfold zfill. now rewrite all_chars_app, file_name_zeros, file_name_str_nat.
Qed.

(** X15. Whatever the clock reads, the name given to the downloaded file is
    made of lower-case letters, digits, underscores and dots only, starts
    with "literature_review_" and has no line break. *)
Theorem download_file_name_safe (now : datetime) :
  all_chars file_name_char (download_file_name now) = true
  /\ PyStr.startswith (download_file_name now) "literature_review_" = true
  /\ PyStr.no_nl (download_file_name now) = true.
Proof.
  unfold download_file_name, strftime_compact. split; [|split].
  - repeat (rewrite all_chars_app; simpl).
    now rewrite file_name_str_nat, !file_name_zfill.
  - apply startswith_app.
  - repeat (rewrite no_nl_app; simpl).
    now rewrite no_nl_str_nat, !no_nl_zfill.
Qed.

(** ** What the pipeline does to the world

    Over the scripted collaborators, whatever their tables, the world keeps
    the list of the pauses, messages and progress ticks of a run. *)

Section Traces.

Variable pages : string -> outcome Article.
Variable summaries : Article -> outcome string.
Variable found : string -> Z -> generated string.
Variable replies : string -> outcome string.

Let Cs : Collaborators Scripted.world :=
  Scripted.collaborators pages summaries found replies.

Lemma scripted_get_page_content_world (url : string) (w : Scripted.world) :
  snd (get_page_content Cs url w) = w.
Proof.
  rewrite get_page_content_unfold. subst Cs. cbn [Article_parse Article_nlp
    Scripted.collaborators]. unfold Scripted.answer.
  destruct (pages url) as [a|e]; reflexivity.
Qed.

Lemma scripted_extract_all_world (urls : list string) (w : Scripted.world) :
  snd (extract_all Cs urls w)
  = Scripted.mkWorld (Scripted.clock w) (Scripted.events w ++ pauses urls)%list.
Proof.
  revert w. induction urls as [|url rest IH]; intros w.
  - simpl. rewrite app_nil_r. now destruct w.
  - cbn [extract_all].
    pose proof (scripted_get_page_content_world url w) as Hw.
    destruct (get_page_content_returns Cs url w) as (page & w1 & Hrun).
    rewrite Hrun in *. cbn [snd] in Hw. subst w1.
    specialize (IH (time_sleep Cs 2 w)).
    destruct (extract_all Cs rest (time_sleep Cs 2 w)) as [ps w2].
    cbn [snd] in *. rewrite IH. subst Cs.
    cbn [time_sleep Scripted.collaborators Scripted.record Scripted.clock
         Scripted.events pauses map].
    now rewrite <- app_assoc.
Qed.

(** X16. [search_papers] pauses for two seconds exactly once per URL the
    search yields, whether the extraction succeeded or not, and does nothing
    else to the world but report the search error, if there is one, at the
    end. *)
Theorem search_papers_pauses (query : string) (max_results : Z)
    (search_domains : option (list string)) (w : Scripted.world) :
  let g := found (academic_query query search_domains) max_results in
  snd (search_papers Cs query max_results search_domains w)
  = Scripted.mkWorld (Scripted.clock w)
      (Scripted.events w ++ pauses (yielded g)
       ++ match failure g with
          | None => []
          | Some e => [Scripted.StError ("Search error: " ++ str_of e)]
          end)%list.
Proof.
  intros g.
  pose proof (search_papers_unfold Cs query max_results search_domains w) as H.
  cbv zeta in H. rewrite H. clear H.
  replace (fst (search Cs (academic_query query search_domains) max_results w))
    with g by reflexivity.
  replace (snd (search Cs (academic_query query search_domains) max_results w))
    with w by reflexivity.
  destruct (failure g) as [e|]; cbn [snd]; rewrite scripted_extract_all_world.
  - subst Cs. cbn [st_error Scripted.collaborators].
    unfold Scripted.record. cbn [Scripted.clock Scripted.events].
    now rewrite <- app_assoc.
  - now rewrite app_nil_r.
Qed.

Lemma scripted_analyze_loop_world (papers : list PageResult) (total i : nat)
    (papers_data : list AnalyzedPaper) (w : Scripted.world) :
  snd (analyze_loop Cs total i papers papers_data w)
  = Scripted.mkWorld (Scripted.clock w)
      (Scripted.events w ++ analysis_events replies total i papers)%list.
Proof.
  revert i papers_data w.
  induction papers as [|paper rest IH]; intros i papers_data w.
  - simpl. rewrite app_nil_r. now destruct w.
  - cbn [analyze_loop analysis_events].
    unfold bind at 1. unfold effect at 1. unfold bind at 1.
    unfold analyze_paper, try_except. subst Cs.
    cbn [chat st_progress print Scripted.collaborators]. unfold Scripted.answer.
    destruct (replies (analysis_prompt paper)) as [text|e].
    + rewrite IH. cbn [Scripted.record Scripted.clock Scripted.events].
      now rewrite <- app_assoc.
    + unfold bind at 1. unfold effect at 1. unfold ret at 1.
      rewrite IH. cbn [Scripted.record Scripted.clock Scripted.events].
      now rewrite <- !app_assoc.
Qed.

Lemma analysis_events_progress (papers : list PageResult) (total i : nat) :
  filter is_progress (analysis_events replies total i papers)
  = map (fun k => Scripted.Progress k total) (seq (i + 1) (List.length papers)).
Proof.
  revert i. induction papers as [|paper rest IH]; intros i; [reflexivity|].
  cbn [analysis_events filter is_progress List.length seq map].
  f_equal. replace (S (i + 1)) with (S i + 1) by lia.
  destruct (replies (analysis_prompt paper)); cbn [filter is_progress]; apply IH.
Qed.

(** X17. When [main] analyses [n] pages, it ticks the progress bar with
    [(1, n)], [(2, n)], ..., [(n, n)] in this order, one tick before each
    model call, prints the message of each call that fails, and clears the
    progress indicators at the end. *)
Theorem main_progress (search_query : string) (max_results : Z)
    (search_domains : option (list string)) (w w1 : Scripted.world)
    (papers : list PageResult) :
  search_query <> "" ->
  search_papers Cs search_query max_results search_domains w = (Return papers, w1) ->
  papers <> [] ->
  Scripted.events
    (snd (main_search_and_analyze Cs search_query max_results search_domains w))
  = (Scripted.events w1
     ++ analysis_events replies (List.length papers) 0 papers
     ++ [Scripted.ProgressCleared])%list
  /\ filter is_progress (analysis_events replies (List.length papers) 0 papers)
     = map (fun k => Scripted.Progress k (List.length papers))
           (seq 1 (List.length papers)).
Proof.
  intros Hq Hs Hne. split; [|apply (analysis_events_progress papers _ 0)].
  unfold main_search_and_analyze.
  apply truthy_true_iff in Hq. rewrite Hq.
  unfold bind at 1. rewrite Hs.
  destruct papers as [|paper rest]; [congruence|].
  pose proof (scripted_analyze_loop_world (paper :: rest)
                (List.length (paper :: rest)) 0 [] w1) as Hw.
  destruct (analyze_loop_appends Cs (paper :: rest)
              (List.length (paper :: rest)) 0 [] w1)
    as (added & w' & Hloop & _).
  unfold bind at 1. rewrite Hloop in *. cbn [snd] in Hw. subst w'.
  unfold bind, effect. cbn [snd]. subst Cs.
  cbn [st_progress_clear Scripted.collaborators Scripted.record Scripted.events].
  now rewrite <- app_assoc.
Qed.

End Traces.

(** ** Further runs on scripted collaborators *)

Module FurtherRuns.

Import Scripted.

(** No page can be downloaded. *)
Definition pages_down (url : string) : outcome Article :=
  Raise (mkException "Article `download()` failed with timed out").

(** The search yields one URL and is then refused. *)
Definition found_then_refused (q : string) (n : Z) : generated string :=
  mkGenerated [url_ok] (Some (mkException "429 Too Many Requests")).

(** X6, on a page that parses. *)
Lemma get_page_content_parsed_normalised_witness :
  exists page w2,
    get_page_content (run []) url_ok w0 = (Return page, w2)
    /\ single_spaced (title page) = true
    /\ single_spaced (body page) = true
    /\ String.length (body page) <= 1500
    /\ link page = url_ok.
Proof.
  apply (get_page_content_parsed_normalised (run []) url_ok w0
           (mkArticle "Attention Is All You Need"
              ("The dominant  sequence transduction models" ++ NL ++ "are based on RNNs."))
           w0).
  reflexivity.
Defined.

(** X7, on a page that parses with nothing in it. *)
Lemma get_page_content_nonempty_url_witness :
  get_page_content (run []) url_blank w0
  = (Return (mkPage url_blank "" url_blank), w0).
Proof.
  apply (get_page_content_nonempty_url (run []) url_blank w0 (mkArticle "" "") w0
           (Raise (mkException "Resource punkt not found.")) w0);
    [discriminate | reflexivity | reflexivity].
Defined.

(** C7 at the failing input: a page that parses with nothing in it. *)
Lemma get_page_content_empty_page_witness :
  get_page_content (run []) url_blank w0
  = (Return (mkPage url_blank "" url_blank), w0)
  /\ get_page_content (run []) url_blank w0
     <> (Return (mkPage url_blank
                   "Content not accessible - might be a PDF or protected content"
                   url_blank),
         w0).
Proof.
  destruct (get_page_content_empty_page (run []) url_blank w0 (mkArticle "" "") w0
              (Raise (mkException "Resource punkt not found.")) w0)
    as (Hrun & _ & Hnot);
    [discriminate | reflexivity | reflexivity | reflexivity | reflexivity
     | reflexivity |].
  split; [exact Hrun | exact Hnot].
Defined.

(** X9, on a search refused after its first result. *)
Lemma search_papers_search_fails_witness :
  search_papers (collaborators pages summaries found_then_refused replies)
    "transformer attention" 5 None w0
  = (Return [],
     mkWorld noon [Slept 2; StError "Search error: 429 Too Many Requests"]).
Proof.
  apply (search_papers_search_fails
           (collaborators pages summaries found_then_refused replies)
           "transformer attention" 5 None w0
           (mkException "429 Too Many Requests")).
  reflexivity.
Defined.

(** X10, with every download failing. *)
Lemma main_no_page_extracted_witness :
  exists w1,
    search_papers (collaborators pages_down summaries (found_urls [url_ok; url_long]) replies)
      "transformer attention" 5 None w0 = (Return [], w1)
    /\ main_search_and_analyze
         (collaborators pages_down summaries (found_urls [url_ok; url_long]) replies)
         "transformer attention" 5 None w0
       = (Return None, record WarnedNoPapers w1).
Proof.
  apply (main_no_page_extracted
           (collaborators pages_down summaries (found_urls [url_ok; url_long]) replies)
           "transformer attention" 5 None w0).
  - intros url w. do 2 eexists. reflexivity.
  - discriminate.
Defined.

(** X11, with the model backend down. *)
Lemma main_model_down_witness :
  exists papers_data w2,
    main_search_and_analyze (run_model_down [url_ok]) "transformer attention" 5 None w0
    = (Return (Some (papers_data,
                     generate_markdown (run_model_down [url_ok]) papers_data
                       "transformer attention" w2)), w2)
    /\ List.length papers_data = List.length [page_ok]
    /\ Forall (fun a => PyStr.startswith (analysis a) "Analysis error: " = true)
         papers_data.
Proof.
  apply (main_model_down (run_model_down [url_ok]) "transformer attention" 5 None
           w0 (mkWorld noon [Slept 2]) [page_ok]).
  - intros prompt w. do 2 eexists. reflexivity.
  - discriminate.
  - vm_compute. reflexivity.
  - discriminate.
Defined.

(** X14, on two worlds whose clocks show the same second. *)
Lemma generate_markdown_timestamp_witness :
  strftime (datetime_now (run []) w0) = strftime (datetime_now (run []) w0_later).
Proof.
  apply (generate_markdown_timestamp (run []) [paper_plain] "transformer attention").
  vm_compute. reflexivity.
Defined.

(** X17, on two pages with the model backend down. *)
Lemma main_progress_witness :
  events (snd (main_search_and_analyze (run_model_down [url_ok; url_report; url_ok])
                 "transformer attention" 5 None w0))
  = [Slept 2; Slept 2; Slept 2;
     Progress 1 2; Printed "connection refused";
     Progress 2 2; Printed "connection refused";
     ProgressCleared].
Proof.
  destruct (main_progress pages summaries (found_urls [url_ok; url_report; url_ok])
              replies_down "transformer attention" 5 None w0
              (mkWorld noon [Slept 2; Slept 2; Slept 2]) [page_ok; page_ok])
    as [Hevents _];
    [discriminate | vm_compute; reflexivity | discriminate |].
  exact Hevents.
Defined.

End FurtherRuns.
